(** * Agent Trust Layer: a shallow embedding of the core gates

    This development models the approval store ([approvals.ts]), the commit
    boundary ([commit-tools.ts]), the Docker sandbox ([sandbox.ts]), the trust
    gate ([trust-gates.ts]) and the workflow orchestrator ([orchestrator.ts])
    and proves the properties the specification states about them.

    Conventions of the embedding:
    - a [Date] is its millisecond time stamp, a [Z]; every place where the
      source reads the clock takes that reading as an argument;
    - [crypto.randomUUID()] is an argument too (the identifier drawn);
    - a function that may [throw] returns an [outcome]; a method of a class
      with mutable fields returns the new state next to its result;
    - template strings are built with [+:+] exactly as the source spells them;
    - a plain object used as a table is the finite map of its own
      properties; [table[key]] and [key in table] go through [object_get]
      and [object_has], which also find what the object inherits from
      [Object.prototype];
    - external collaborators (the LLM client, Docker, the file system, the
      approval store seen through its interface) are arguments whose answers
      the theorems quantify over.
*)

From Stdlib Require Import ZArith Ascii String List Bool Lia Permutation Sorted.
From stdpp Require Import base gmap strings list.

Local Open Scope Z_scope.
Set Warnings "-register-all".

(* ===================================================================== *)
(** * Part I: definitions                                                 *)
(* ===================================================================== *)

(** ** Results of code that can throw *)

Inductive outcome (A : Type) : Type :=
| Ok (a : A)
| Throw (message : string).
Arguments Ok {A} a.
Arguments Throw {A} message.


(** JavaScript truthiness of a string: only the empty string is falsy. *)
Definition truthy (s : string) : bool := negb (String.eqb s "").

(** [s.includes(sub)] *)
Fixpoint includes (s sub : string) : bool :=
  String.prefix sub s ||
  match s with
  | EmptyString => false
  | String _ s' => includes s' sub
  end.

(** [s.split(".").pop()]: the characters after the last dot. *)
Fixpoint last_segment_from (s acc : string) : string :=
  match s with
  | EmptyString => acc
  | String c s' =>
      if Ascii.eqb c "."%char then last_segment_from s' ""
      else last_segment_from s' (acc +:+ String c "")
  end.

Definition last_segment (s : string) : string := last_segment_from s "".

(** ** Plain objects used as tables

    The source keeps two tables in plain objects and reads them with
    [table[key]] and [key in table]. Both find the own properties of the
    object and, failing that, the members every object inherits from
    [Object.prototype]: functions, and the prototype itself under
    ["__proto__"]. All of them are truthy, and none is a value of the
    table. *)
Definition OBJECT_PROTOTYPE_MEMBERS : list string :=
  [ "constructor"; "__defineGetter__"; "__defineSetter__"; "hasOwnProperty";
    "__lookupGetter__"; "__lookupSetter__"; "isPrototypeOf";
    "propertyIsEnumerable"; "toString"; "valueOf"; "__proto__";
    "toLocaleString" ]%string.

Definition inherited (key : string) : bool :=
  bool_decide (key ∈ OBJECT_PROTOTYPE_MEMBERS).

(** What [table[key]] yields. *)
Inductive Property (V : Type) : Type :=
| Own (v : V)               (* an entry of the table *)
| Member (key : string)     (* the member of [Object.prototype] of that name *)
| Undefined.
Arguments Own {V} v.
Arguments Member {V} key.
Arguments Undefined {V}.

(** [table[key]], for a table with the own properties [own]. *)
Definition object_get {V} (own : gmap string V) (key : string) : Property V :=
  match own !! key with
  | Some v => Own v
  | None => if inherited key then Member key else Undefined
  end.

(** [key in table] *)
Definition object_has {V} (own : gmap string V) (key : string) : bool :=
  bool_decide (is_Some (own !! key)) || inherited key.

(** A string property inside a template string: [undefined] prints as
    "undefined". *)
Definition or_undefined (s : option string) : string := default "undefined" s.

(** ** schemas.ts *)

Module Schemas.

Inductive TrustLevel := L0 | L1 | L2 | L3 | L4.
Inductive ToolCapability := READ | PROPOSE | WRITE | SIDE_EFFECTS.
Inductive RiskLevel := LOW | MEDIUM | HIGH | CRITICAL.
Inductive ExecutionMode := DIRECT | SANDBOX_ONLY.
Inductive Verification := NONE | RULES | MULTI_AGENT | HUMAN_APPROVAL.
Inductive WorkflowStage := plan | execute | review | commit.
Inductive AgentRole := planner | worker | reviewer.
Inductive Domain := asi | land.
Inductive ApprovalStatus := PENDING | APPROVED | REJECTED | EXPIRED.
Inductive ReviewerVerdict := PASS | FAIL.
Inductive DecisionType := APPROVE | REJECT.

#[export] Instance TrustLevel_eq_dec : EqDecision TrustLevel.
Proof. solve_decision. Defined.
#[export] Instance ToolCapability_eq_dec : EqDecision ToolCapability.
Proof. solve_decision. Defined.
#[export] Instance RiskLevel_eq_dec : EqDecision RiskLevel.
Proof. solve_decision. Defined.
#[export] Instance ExecutionMode_eq_dec : EqDecision ExecutionMode.
Proof. solve_decision. Defined.
#[export] Instance WorkflowStage_eq_dec : EqDecision WorkflowStage.
Proof. solve_decision. Defined.
#[export] Instance AgentRole_eq_dec : EqDecision AgentRole.
Proof. solve_decision. Defined.
#[export] Instance Domain_eq_dec : EqDecision Domain.
Proof. solve_decision. Defined.
#[export] Instance ApprovalStatus_eq_dec : EqDecision ApprovalStatus.
Proof. solve_decision. Defined.
#[export] Instance ReviewerVerdict_eq_dec : EqDecision ReviewerVerdict.
Proof. solve_decision. Defined.
#[export] Instance DecisionType_eq_dec : EqDecision DecisionType.
Proof. solve_decision. Defined.

(** The strings the enumerations are in the source. *)
Definition TrustLevel_str (l : TrustLevel) : string :=
  match l with L0 => "L0" | L1 => "L1" | L2 => "L2" | L3 => "L3" | L4 => "L4" end.

Definition ApprovalStatus_str (s : ApprovalStatus) : string :=
  match s with
  | PENDING => "PENDING" | APPROVED => "APPROVED"
  | REJECTED => "REJECTED" | EXPIRED => "EXPIRED"
  end.

Definition ReviewerVerdict_str (v : ReviewerVerdict) : string :=
  match v with PASS => "PASS" | FAIL => "FAIL" end.

(** [TRUST_ORDER.indexOf(l)] with [TRUST_ORDER = ["L0","L1","L2","L3","L4"]]. *)
Definition trust_index (l : TrustLevel) : Z :=
  match l with L0 => 0 | L1 => 1 | L2 => 2 | L3 => 3 | L4 => 4 end.

(** An opaque JSON value ([unknown] in the source); never inspected. *)
Inductive JsonValue :=
| JNull
| JBool (b : bool)
| JNumber (n : Z)
| JString (s : string)
| JArray (items : list JsonValue)
| JObject (fields : list (string * JsonValue)).

Record ToolDefinition := {
  name : string;
  description : string;
  capability : ToolCapability;
  risk : RiskLevel;
  executionMode : ExecutionMode;
  verification : Verification;
}.

Record AgentDefinition := {
  agent_name : string;
  role : AgentRole;
  systemPrompt : string;
  allowedTools : list string;
  maxTurns : nat;
}.

Record WorkflowDefinition := {
  wf_name : string;
  wf_domain : Domain;
  agents : list AgentDefinition;
  stages : list WorkflowStage;
}.

End Schemas.

(** ** approvals.ts *)

Module Approvals.
Import Schemas.

(** [ApprovalRequest.context]: the code under study reads only its
    [sandboxId] entry (cast to [string | undefined]); the other entries are
    kept opaque. *)
Record RequestContext := {
  ctx_sandboxId : option string;
  ctx_other : list (string * JsonValue);
}.

Record ApprovalRequest := {
  req_id : string;
  createdAt : Z;
  domain : Domain;
  runId : string;
  workflowName : string;
  requestedBy : string;
  trustLevel : TrustLevel;
  actionType : string;
  actionPayload : list (string * JsonValue);
  status : ApprovalStatus;
  expiresAt : Z;
  context : option RequestContext;
  reviewerVerdict : option ReviewerVerdict;
  reviewerNotes : option string;
  autoApproveEligible : bool;
  autoApproveReason : option string;
}.

Record ApprovalDecision := {
  dec_id : string;
  dec_createdAt : Z;
  approvalRequestId : string;
  decidedBy : string;
  decision : DecisionType;
  notes : option string;
  metadata : option (list (string * JsonValue));
}.

(** [CreateApprovalRequestInput] after the enumerations have been parsed;
    [in_domain] is [None] when the caller leaves the default. *)
Record CreateApprovalRequestInput := {
  in_domain : option Domain;
  in_runId : string;
  in_workflowName : string;
  in_requestedBy : string;
  in_trustLevel : TrustLevel;
  in_actionType : string;
  in_actionPayload : list (string * JsonValue);
  in_context : option RequestContext;
  in_reviewerVerdict : option ReviewerVerdict;
  in_reviewerNotes : option string;
}.

Record CreateDecisionInput := {
  cd_approvalRequestId : string;
  cd_decidedBy : string;
  cd_decision : DecisionType;
  cd_notes : option string;
  cd_metadata : option (list (string * JsonValue));
}.

Definition AUTO_APPROVE_DENY_LIST : list string :=
  [ "COMMIT_SEND_INVOICE"; "COMMIT_MARK_CHECKPOINT_COMPLETE";
    "billing_reconciliation"; "compliance_audit_pack" ]%string.

Definition AUTO_APPROVE_ALLOW_LIST : list string :=
  [ "COMMIT_POST_ALERT"; "COMMIT_PUBLISH_DAILY_BRIEF"; "COMMIT_APPLY_CHANGES";
    "daily_ops_brief"; "alert_triage" ]%string.

(** [list.includes(x)] on an array of strings. *)
Definition list_includes (l : list string) (x : string) : bool :=
  existsb (String.eqb x) l.

(** [isAutoApproveEligible], the same body in both store classes. *)
Definition isAutoApproveEligible (trustLevel : TrustLevel)
    (actionType workflowName : string)
    (reviewerVerdict : option ReviewerVerdict) : bool :=
  if decide (trustLevel = L4) then false
  else if decide (trustLevel <> L3) then false
  else if decide (reviewerVerdict <> Some PASS) then false
  else if list_includes AUTO_APPROVE_DENY_LIST actionType
          || list_includes AUTO_APPROVE_DENY_LIST workflowName then false
  else if list_includes AUTO_APPROVE_ALLOW_LIST actionType
          || list_includes AUTO_APPROVE_ALLOW_LIST workflowName then true
  else false.

(** The eligibility [createRequest] stores:
    [isL4 ? false : this.isAutoApproveEligible(...)]. *)
Definition createRequest_eligibility (input : CreateApprovalRequestInput) : bool :=
  if decide (in_trustLevel input = L4) then false
  else isAutoApproveEligible (in_trustLevel input) (in_actionType input)
         (in_workflowName input) (in_reviewerVerdict input).

(** [isL4 ? 86400 : 3600], in seconds. *)
Definition expirySeconds (l : TrustLevel) : Z :=
  if decide (l = L4) then 86400 else 3600.

(** *** The in-memory store

    [requests] is a JavaScript [Map], whose iteration order (insertion
    order) is observable through [Array.from(values())]: it is an
    association list in insertion order. [decisions] is only looked up,
    tested and set by key: a [gmap]. *)
Record Store := {
  requests : list (string * ApprovalRequest);
  decisions : gmap string ApprovalDecision;
}.

Definition empty_store : Store := {| requests := []; decisions := ∅ |}.

(** [Map.get] *)
Fixpoint map_get {V} (m : list (string * V)) (k : string) : option V :=
  match m with
  | [] => None
  | (k', v) :: m' => if String.eqb k' k then Some v else map_get m' k
  end.

(** [Map.set]: an existing key keeps its position. *)
Fixpoint map_set {V} (m : list (string * V)) (k : string) (v : V)
  : list (string * V) :=
  match m with
  | [] => [(k, v)]
  | (k', v') :: m' =>
      if String.eqb k' k then (k, v) :: m' else (k', v') :: map_set m' k v
  end.

(** Assignment to a field of the object stored under [k]. *)
Fixpoint map_update {V} (m : list (string * V)) (k : string) (f : V -> V)
  : list (string * V) :=
  match m with
  | [] => []
  | (k', v') :: m' =>
      if String.eqb k' k then (k', f v') :: m' else (k', v') :: map_update m' k f
  end.

(** [Array.from(map.values())] *)
Definition map_values {V} (m : list (string * V)) : list V := map snd m.

Definition set_status (st : ApprovalStatus) (r : ApprovalRequest) : ApprovalRequest :=
  {| req_id := req_id r; createdAt := createdAt r; domain := domain r;
     runId := runId r; workflowName := workflowName r;
     requestedBy := requestedBy r; trustLevel := trustLevel r;
     actionType := actionType r; actionPayload := actionPayload r;
     status := st; expiresAt := expiresAt r; context := context r;
     reviewerVerdict := reviewerVerdict r; reviewerNotes := reviewerNotes r;
     autoApproveEligible := autoApproveEligible r;
     autoApproveReason := autoApproveReason r |}.

Definition set_autoApproveReason (reason : string) (r : ApprovalRequest)
  : ApprovalRequest :=
  {| req_id := req_id r; createdAt := createdAt r; domain := domain r;
     runId := runId r; workflowName := workflowName r;
     requestedBy := requestedBy r; trustLevel := trustLevel r;
     actionType := actionType r; actionPayload := actionPayload r;
     status := status r; expiresAt := expiresAt r; context := context r;
     reviewerVerdict := reviewerVerdict r; reviewerNotes := reviewerNotes r;
     autoApproveEligible := autoApproveEligible r;
     autoApproveReason := Some reason |}.

(** [Array.prototype.sort(cmp)]: a stable sort; [cmp a b > 0] puts [a]
    after [b]. *)
Fixpoint insert_by {A} (cmp : A -> A -> Z) (x : A) (l : list A) : list A :=
  match l with
  | [] => [x]
  | y :: l' => if 0 <? cmp x y then y :: insert_by cmp x l' else x :: y :: l'
  end.

Fixpoint sort_by {A} (cmp : A -> A -> Z) (l : list A) : list A :=
  match l with
  | [] => []
  | x :: l' => insert_by cmp x (sort_by cmp l')
  end.





(** [InMemoryApprovalStore.getRequestsByRunId] *)
Definition getRequestsByRunId (s : Store) (run : string) : list ApprovalRequest :=
  sort_by (fun a b => createdAt a - createdAt b)
    (List.filter (fun r => String.eqb (runId r) run) (map_values (requests s))).

Definition getRequest (s : Store) (id : string) : option ApprovalRequest :=
  map_get (requests s) id.

Definition getDecision (s : Store) (id : string) : option ApprovalDecision :=
  decisions s !! id.

Definition isApproved (s : Store) (id : string) : bool :=
  match getRequest s id with
  | Some r => bool_decide (status r = APPROVED)
  | None => false
  end.

Definition isPending (s : Store) (now : Z) (id : string) : bool :=
  match getRequest s id with
  | None => false
  | Some r =>
      if decide (status r <> PENDING) then false
      else if expiresAt r <? now then false
      else true
  end.

Definition is_stale_at (now : Z) (r : ApprovalRequest) : bool :=
  bool_decide (status r = PENDING) && (expiresAt r <? now).

(** [InMemoryApprovalStore.expireStaleRequests]: the count and the store. *)
Definition expireStaleRequests (s : Store) (now : Z) : nat * Store :=
  (length (List.filter (is_stale_at now) (map_values (requests s))),
   {| requests :=
        map (fun kv => (fst kv, if is_stale_at now (snd kv)
                                then set_status EXPIRED (snd kv) else snd kv))
            (requests s);
      decisions := decisions s |}).

Section InMemoryApprovalStore.

(** [z.string().uuid()]: the format test of the validation library, which
    is not part of the repository, and the message of the error it throws. *)
Variable is_uuid : string -> bool.
Variable validation_message : string.

(** [CreateApprovalRequestSchema.parse] succeeds. *)
Definition valid_request_input (input : CreateApprovalRequestInput) : bool :=
  is_uuid (in_runId input)
  && truthy (in_workflowName input)
  && truthy (in_requestedBy input)
  && truthy (in_actionType input).

(** [CreateDecisionSchema.parse] succeeds. *)
Definition valid_decision_input (input : CreateDecisionInput) : bool :=
  is_uuid (cd_approvalRequestId input) && truthy (cd_decidedBy input).

(** [InMemoryApprovalStore.createRequest]. [uuid] is the identifier drawn,
    [now] the clock read for the expiry and [now'] the one for [createdAt]. *)
Definition createRequest (s : Store) (uuid : string) (now now' : Z)
    (input : CreateApprovalRequestInput) : outcome ApprovalRequest * Store :=
  if negb (valid_request_input input) then
    (Throw ("FAIL CLOSED: Invalid approval request input - " +:+ validation_message), s)
  else
    let request :=
      {| req_id := uuid;
         createdAt := now';
         domain := default asi (in_domain input);
         runId := in_runId input;
         workflowName := in_workflowName input;
         requestedBy := in_requestedBy input;
         trustLevel := in_trustLevel input;
         actionType := in_actionType input;
         actionPayload := in_actionPayload input;
         status := PENDING;
         expiresAt := now + expirySeconds (in_trustLevel input) * 1000;
         context := in_context input;
         reviewerVerdict := in_reviewerVerdict input;
         reviewerNotes := in_reviewerNotes input;
         autoApproveEligible := createRequest_eligibility input;
         autoApproveReason := None |} in
    (Ok request,
     {| requests := map_set (requests s) uuid request;
        decisions := decisions s |}).

Definition decided_status (d : DecisionType) : ApprovalStatus :=
  match d with APPROVE => APPROVED | REJECT => REJECTED end.

(** [InMemoryApprovalStore.createDecision]. [now] is the clock read by the
    expiry test, [uuid] and [now'] the identifier and time of the decision. *)
Definition createDecision (s : Store) (uuid : string) (now now' : Z)
    (input : CreateDecisionInput) : outcome ApprovalDecision * Store :=
  if negb (valid_decision_input input) then (Throw validation_message, s)
  else
    match getRequest s (cd_approvalRequestId input) with
    | None =>
        (Throw ("Approval request not found: " +:+ cd_approvalRequestId input), s)
    | Some request =>
        if decide (status request <> PENDING) then
          (Throw ("Cannot decide on request with status: "
                  +:+ ApprovalStatus_str (status request)), s)
        else if expiresAt request <? now then
          (Throw "Approval request has expired", s)
        else if bool_decide (is_Some (decisions s !! cd_approvalRequestId input)) then
          (Throw "A decision has already been made for this request", s)
        else
          let decision :=
            {| dec_id := uuid;
               dec_createdAt := now';
               approvalRequestId := cd_approvalRequestId input;
               decidedBy := cd_decidedBy input;
               decision := cd_decision input;
               notes := cd_notes input;
               metadata := cd_metadata input |} in
          (Ok decision,
           {| requests :=
                map_update (requests s) (cd_approvalRequestId input)
                  (set_status (decided_status (cd_decision input)));
              decisions := <[cd_approvalRequestId input := decision]> (decisions s) |})
    end.

(** The input [autoApprove] hands to [createDecision]. *)
Definition auto_decision_input (id reason : string) : CreateDecisionInput :=
  {| cd_approvalRequestId := id;
     cd_decidedBy := "system:auto-approve";
     cd_decision := APPROVE;
     cd_notes := Some reason;
     cd_metadata := Some [("autoApproved", JBool true); ("reason", JString reason)] |}.

(** [InMemoryApprovalStore.autoApprove]. [now] is the clock read by the
    expiry gate; [uuid], [now1] and [now2] are what the nested
    [createDecision] draws and reads. *)
Definition autoApprove (s : Store) (id reason : string) (now : Z)
    (uuid : string) (now1 now2 : Z) : outcome (option ApprovalDecision) * Store :=
  match getRequest s id with
  | None => (Throw ("FAIL CLOSED: Approval request not found: " +:+ id), s)
  | Some request =>
      if decide (trustLevel request = L4) then (Ok None, s)
      else if decide (status request <> PENDING) then (Ok None, s)
      else if negb (autoApproveEligible request) then (Ok None, s)
      else if decide (reviewerVerdict request <> Some PASS) then (Ok None, s)
      else if expiresAt request <? now then (Ok None, s)
      else
        let s1 :=
          {| requests := map_update (requests s) id (set_autoApproveReason reason);
             decisions := decisions s |} in
        match createDecision s1 uuid now1 now2 (auto_decision_input id reason) with
        | (Ok d, s2) => (Ok (Some d), s2)
        | (Throw e, s2) => (Throw e, s2)
        end
  end.

(** *** The store as a state machine: the calls that change it. *)
Inductive Call :=
| CallCreateRequest (uuid : string) (now now' : Z) (input : CreateApprovalRequestInput)
| CallCreateDecision (uuid : string) (now now' : Z) (input : CreateDecisionInput)
| CallAutoApprove (id reason : string) (now : Z) (uuid : string) (now1 now2 : Z)
| CallExpireStaleRequests (now : Z).

Definition exec (s : Store) (c : Call) : Store :=
  match c with
  | CallCreateRequest uuid now now' input => snd (createRequest s uuid now now' input)
  | CallCreateDecision uuid now now' input => snd (createDecision s uuid now now' input)
  | CallAutoApprove id reason now uuid now1 now2 =>
      snd (autoApprove s id reason now uuid now1 now2)
  | CallExpireStaleRequests now => snd (expireStaleRequests s now)
  end.

Definition run (calls : list Call) : Store := fold_left exec calls empty_store.

(** [crypto.randomUUID()] yields a well-formed identifier not in use. *)
Definition fresh_call (s : Store) (c : Call) : Prop :=
  match c with
  | CallCreateRequest uuid _ _ _ =>
      is_uuid uuid = true /\ map_get (requests s) uuid = None
  | _ => True
  end.

Inductive reachable : Store -> Prop :=
| reach_empty : reachable empty_store
| reach_exec s c : reachable s -> fresh_call s c -> reachable (exec s c).

End InMemoryApprovalStore.

End Approvals.

(** ** sandbox.ts *)

Module Sandbox.
Import Schemas.

Inductive SandboxFailureReason :=
| DOCKER_NOT_AVAILABLE
| DOCKER_NOT_RUNNING
| IMAGE_PULL_FAILED
| BLOCKED_ENV_VAR_REQUESTED
| INVALID_INPUT
| NETWORK_ALLOWLIST_INVALID
| ARTIFACTS_DIR_CREATION_FAILED
| EXECUTION_TIMEOUT
| CONTAINER_STARTUP_FAILED
| UNKNOWN_ERROR.

#[export] Instance SandboxFailureReason_eq_dec : EqDecision SandboxFailureReason.
Proof. solve_decision. Defined.

Record SandboxConfig := {
  image : string;
  memoryLimit : string;
  cpuLimit : string;
  timeoutSeconds : Z;
  egressAllowed : bool;
  egressAllowlist : list string;
  allowedEnvVars : list string;
  artifactsDir : string;
  maxArtifactsSizeMb : Z;
  failClosedOnDockerUnavailable : bool;
  verboseSecurityLogging : bool;
}.


Definition ToolArgs := list (string * JsonValue).

(** A thrown value: an [Error] with its message, or any other value, given
    by the string [String(value)] makes of it. *)
Inductive Thrown :=
| ErrorObject (message : string)
| OtherValue (text : string).

(** [error instanceof Error ? error.message : String(error)] *)
Definition thrown_text (e : Thrown) : string :=
  match e with ErrorObject message => message | OtherValue text => text end.

(** How a call of the handler ends: it returns, it throws, or it is still
    running when the timeout of [executeDirectly] fires. *)
Inductive HandlerRun :=
| Returned (v : JsonValue)
| Threw (e : Thrown)
| StillRunning.

Definition Handler := ToolArgs -> HandlerRun.

Record SandboxExecutionInput := {
  in_sandboxId : option string;
  in_runId : string;
  in_toolName : string;
  in_toolArgs : ToolArgs;
  in_handler : option Handler;
}.

Record SandboxExecutionResult := {
  success : bool;
  result : option JsonValue;
  error : option string;
  sandboxId : string;
  artifacts : list string;
  durationMs : Z;
  timedOut : bool;
  exitCode : option Z;
  stdout : option string;
  stderr : option string;
  failureReason : option SandboxFailureReason;
  deniedByPolicy : option bool;
}.

Inductive ChangeType := change_create | change_update | change_delete.

Record StagedChange := {
  change_id : string;
  change_sandboxId : string;
  change_toolName : string;
  changeType : ChangeType;
  entityType : string;
  entityId : option string;
  payload : list (string * JsonValue);
  change_createdAt : Z;
}.

(** What [runCommand] resolves to. *)
Record CommandResult := {
  cmd_exitCode : Z;
  cmd_stdout : string;
  cmd_stderr : string;
  cmd_timedOut : bool;
}.

(** What [JSON.parse(result.stdout)] yields when it does not throw: the
    three properties [executeInDocker] reads. *)
Record ContainerOutput := {
  out_result : option JsonValue;
  out_error : option string;
  out_success : option bool;
}.

(** The answers of the outside world during one [execute]. *)
Record World := {
  w_uuid : string;                       (* randomUUID() for the sandbox id *)
  w_now : Z;                             (* Date.now() in isDockerAvailable *)
  w_elapsed : Z;                         (* performance.now() - startTime *)
  w_mkdir : outcome unit;                (* fs.mkdir *)
  w_docker_probe : outcome CommandResult;    (* docker version --format ... *)
  w_docker_version : outcome CommandResult;  (* docker version *)
  w_docker_run : outcome CommandResult;      (* docker run ... *)
  w_json_parse : string -> option ContainerOutput;
  w_readdir : outcome (list string);     (* fs.readdir *)
  w_change_uuid : string;                (* randomUUID() in storeStage *)
  w_change_time : Z;                     (* new Date() in storeStage *)
}.

(** The mutable fields of a [DockerSandbox]. *)
Record DockerSandbox := {
  config : SandboxConfig;
  stagedChanges : gmap string (list StagedChange);
  dockerAvailabilityCache : option bool;
  dockerAvailabilityCacheTime : Z;
}.

Definition DOCKER_CACHE_TTL_MS : Z := 30000.

Definition with_cache (sb : DockerSandbox) (b : bool) (t : Z) : DockerSandbox :=
  {| config := config sb; stagedChanges := stagedChanges sb;
     dockerAvailabilityCache := Some b; dockerAvailabilityCacheTime := t |}.

Definition with_stagedChanges (sb : DockerSandbox)
    (m : gmap string (list StagedChange)) : DockerSandbox :=
  {| config := config sb; stagedChanges := m;
     dockerAvailabilityCache := dockerAvailabilityCache sb;
     dockerAvailabilityCacheTime := dockerAvailabilityCacheTime sb |}.

(** [createFailClosedResult] *)
Definition createFailClosedResult (w : World) (sandboxId : string)
    (reason : SandboxFailureReason) (error : string) : SandboxExecutionResult :=
  {| success := false;
     result := None;
     error := Some ("FAIL CLOSED: " +:+ error);
     sandboxId := sandboxId;
     artifacts := [];
     durationMs := w_elapsed w;
     timedOut := false;
     exitCode := None; stdout := None; stderr := None;
     failureReason := Some reason;
     deniedByPolicy := Some true |}.

(** [validateInput] *)
Definition validateInput (input : SandboxExecutionInput) : option string :=
  if negb (truthy (in_runId input)) then
    Some "Input missing required 'runId' field"
  else if negb (truthy (in_toolName input)) then
    Some "Input missing required 'toolName' field"
  else if negb (bool_decide (is_Some (in_handler input))) then
    Some "Input missing required 'handler' function"
  else None.

(** [isDockerAvailable], with its cache. *)
Definition isDockerAvailable (sb : DockerSandbox) (w : World)
  : bool * DockerSandbox :=
  match dockerAvailabilityCache sb with
  | Some cached =>
      if w_now w - dockerAvailabilityCacheTime sb <? DOCKER_CACHE_TTL_MS
      then (cached, sb)
      else
        match w_docker_probe w with
        | Ok r => (cmd_exitCode r =? 0, with_cache sb (cmd_exitCode r =? 0) (w_now w))
        | Throw _ => (false, with_cache sb false (w_now w))
        end
  | None =>
      match w_docker_probe w with
      | Ok r => (cmd_exitCode r =? 0, with_cache sb (cmd_exitCode r =? 0) (w_now w))
      | Throw _ => (false, with_cache sb false (w_now w))
      end
  end.

(** [diagnoseDockerUnavailability] *)
Definition diagnoseDockerUnavailability (w : World) : string :=
  match w_docker_version w with
  | Ok r =>
      if negb (cmd_exitCode r =? 0) then
        if includes (cmd_stderr r) "Cannot connect to the Docker daemon" then
          "Docker daemon is not running"
        else if includes (cmd_stderr r) "command not found"
                || includes (cmd_stderr r) "not found" then
          "Docker is not installed"
        else if includes (cmd_stderr r) "permission denied" then
          "Permission denied to access Docker socket"
        else "Docker error: " +:+ substring 0 100 (cmd_stderr r)
      else "Unknown Docker issue"
  | Throw e => "Docker check failed: " +:+ e
  end.

(** The part of a result the three execution strategies compute. *)
Record PartialResult := {
  p_success : bool;
  p_result : option JsonValue;
  p_error : option string;
  p_timedOut : bool;
  p_exitCode : option Z;
  p_stdout : option string;
  p_stderr : option string;
  p_failureReason : option SandboxFailureReason;
  p_deniedByPolicy : option bool;
}.

(** [executeInDocker]: the container runs the placeholder script built by
    [buildExecutionScript]; the handler itself is not called. The command
    line built from the configuration only reaches Docker, whose answer is
    [w_docker_run]. *)
Definition executeInDocker (w : World) : PartialResult :=
  match w_docker_run w with
  | Ok r =>
      let base_success := cmd_exitCode r =? 0 in
      let '(parsed, err, ok) :=
        if truthy (cmd_stdout r) then
          match w_json_parse w (cmd_stdout r) with
          | Some o => (out_result o, out_error o, default base_success (out_success o))
          | None => (Some (JString (cmd_stdout r)), None, base_success)
          end
        else (None, None, base_success) in
      let err :=
        if truthy (cmd_stderr r) && negb (bool_decide (is_Some err))
        then Some (cmd_stderr r) else err in
      {| p_success := ok; p_result := parsed; p_error := err;
         p_timedOut := cmd_timedOut r; p_exitCode := Some (cmd_exitCode r);
         p_stdout := Some (cmd_stdout r); p_stderr := Some (cmd_stderr r);
         p_failureReason := None; p_deniedByPolicy := None |}
  | Throw e =>
      {| p_success := false; p_result := None; p_error := Some e;
         p_timedOut := false; p_exitCode := None;
         p_stdout := None; p_stderr := None;
         p_failureReason := None; p_deniedByPolicy := None |}
  end.

(** [inferEntityType] *)
Definition inferEntityType (toolName : string) : string :=
  if includes toolName "booking" then "booking"
  else if includes toolName "flight" then "flight"
  else if includes toolName "event" then "event"
  else if includes toolName "brief" then "brief"
  else if includes toolName "alert" then "alert"
  else "unknown".

(** [storeStage] *)
Definition storeStage (sb : DockerSandbox) (w : World) (sandboxId : string)
    (input : SandboxExecutionInput) (res : JsonValue) : DockerSandbox :=
  let change :=
    {| change_id := w_change_uuid w;
       change_sandboxId := sandboxId;
       change_toolName := in_toolName input;
       changeType := change_create;
       entityType := inferEntityType (in_toolName input);
       entityId := None;
       payload := [("args", JObject (in_toolArgs input)); ("result", res)];
       change_createdAt := w_change_time w |} in
  let existing := default [] (stagedChanges sb !! sandboxId) in
  with_stagedChanges sb (<[sandboxId := existing ++ [change]]> (stagedChanges sb)).

(** [executeDirectly]: the only place of [DockerSandbox] where the handler
    is called. The third component lists the handler invocations. *)
Definition executeDirectly (sb : DockerSandbox) (w : World)
    (input : SandboxExecutionInput) (sandboxId : string)
  : PartialResult * DockerSandbox * list ToolArgs :=
  match in_handler input with
  | None =>
      (* calling [undefined]: a TypeError, caught by the enclosing [try] *)
      ({| p_success := false; p_result := None;
          p_error := Some "input.handler is not a function";
          p_timedOut := false; p_exitCode := Some 1;
          p_stdout := None; p_stderr := None;
          p_failureReason := None; p_deniedByPolicy := Some false |}, sb, [])
  | Some handler =>
      match handler (in_toolArgs input) with
      | Returned v =>
          ({| p_success := true; p_result := Some v; p_error := None;
              p_timedOut := false; p_exitCode := Some 0;
              p_stdout := None; p_stderr := None;
              p_failureReason := None; p_deniedByPolicy := Some false |},
           storeStage sb w sandboxId input v, [in_toolArgs input])
      | Threw e =>
          let isTimeout :=
            match e with
            | ErrorObject message => String.eqb message "Execution timeout"
            | OtherValue _ => false
            end in
          ({| p_success := false; p_result := None;
              p_error := Some (thrown_text e);
              p_timedOut := isTimeout;
              p_exitCode := Some (if isTimeout then 124 else 1);
              p_stdout := None; p_stderr := None;
              p_failureReason := if isTimeout then Some EXECUTION_TIMEOUT else None;
              p_deniedByPolicy := Some false |}, sb, [in_toolArgs input])
      | StillRunning =>
          ({| p_success := false; p_result := None;
              p_error := Some "Execution timeout";
              p_timedOut := true; p_exitCode := Some 124;
              p_stdout := None; p_stderr := None;
              p_failureReason := Some EXECUTION_TIMEOUT;
              p_deniedByPolicy := Some false |}, sb, [in_toolArgs input])
      end
  end.

Definition complete (w : World) (sandboxId : string) (p : PartialResult)
  : SandboxExecutionResult :=
  {| success := p_success p; result := p_result p; error := p_error p;
     sandboxId := sandboxId; artifacts := []; durationMs := w_elapsed w;
     timedOut := p_timedOut p; exitCode := p_exitCode p;
     stdout := p_stdout p; stderr := p_stderr p;
     failureReason := p_failureReason p;
     deniedByPolicy := p_deniedByPolicy p |}.

(** [executeWithIsolation] *)
Definition executeWithIsolation (sb : DockerSandbox) (w : World)
    (input : SandboxExecutionInput) (sandboxId : string)
  : SandboxExecutionResult * DockerSandbox * list ToolArgs :=
  let '(dockerAvailable, sb) := isDockerAvailable sb w in
  if dockerAvailable then
    (complete w sandboxId (executeInDocker w), sb, [])
  else if failClosedOnDockerUnavailable (config sb) then
    let reason := diagnoseDockerUnavailability w in
    ({| success := false;
        result := None;
        error := Some ("FAIL CLOSED: Docker unavailable - " +:+ reason +:+ ". "
                       +:+ "Sandboxed execution is required for L2+ operations.");
        sandboxId := sandboxId;
        artifacts := [];
        durationMs := w_elapsed w;
        timedOut := false;
        exitCode := None; stdout := None; stderr := None;
        failureReason :=
          Some (if String.eqb reason "Docker daemon is not running"
                then DOCKER_NOT_RUNNING else DOCKER_NOT_AVAILABLE);
        deniedByPolicy := Some true |}, sb, [])
  else
    let '(p, sb, calls) := executeDirectly sb w input sandboxId in
    (complete w sandboxId p, sb, calls).

(** [collectArtifacts] *)
Definition collectArtifacts (w : World) (artifactsPath : string) : list string :=
  match w_readdir w with
  | Ok files => map (fun f => artifactsPath +:+ "/" +:+ f) files
  | Throw _ => []
  end.

(** [DockerSandbox.execute]. No step inside its [try] block throws in this
    model, so the [catch] that answers [UNKNOWN_ERROR] is not taken. *)
Definition execute (sb : DockerSandbox) (w : World) (input : SandboxExecutionInput)
  : SandboxExecutionResult * DockerSandbox * list ToolArgs :=
  let sandboxId := default ("sandbox-" +:+ w_uuid w) (in_sandboxId input) in
  match validateInput input with
  | Some inputError =>
      (createFailClosedResult w sandboxId INVALID_INPUT inputError, sb, [])
  | None =>
      let artifactsPath := artifactsDir (config sb) +:+ "/" +:+ sandboxId in
      match w_mkdir w with
      | Throw e =>
          (createFailClosedResult w sandboxId ARTIFACTS_DIR_CREATION_FAILED
             ("Failed to create artifacts directory: " +:+ e), sb, [])
      | Ok _ =>
          let '(r, sb, calls) := executeWithIsolation sb w input sandboxId in
          if bool_decide (deniedByPolicy r = Some true) then (r, sb, calls)
          else
            ({| success := success r; result := result r; error := error r;
                sandboxId := sandboxId;
                artifacts := collectArtifacts w artifactsPath;
                durationMs := w_elapsed w;
                timedOut := timedOut r; exitCode := exitCode r;
                stdout := stdout r; stderr := stderr r;
                failureReason := failureReason r;
                deniedByPolicy := deniedByPolicy r |}, sb, calls)
      end
  end.

(** [DockerSandbox.getStagedChanges] *)
Definition getStagedChanges (sb : DockerSandbox) (sandboxId : string)
  : list StagedChange :=
  default [] (stagedChanges sb !! sandboxId).


End Sandbox.

(** ** commit-tools.ts *)

Module CommitTools.
Import Schemas.

Record CommitToolDefinition := {
  tool_name : string;
  tool_description : string;
  minTrustLevel : TrustLevel;
  tool_actionType : string;
  tool_autoApproveEligible : bool;
  tool_risk : RiskLevel;
}.

Definition COMMIT_TOOL_LIST : list (string * CommitToolDefinition) :=
  [ ("asi.commit_apply_changes",
     {| tool_name := "asi.commit_apply_changes";
        tool_description := "Apply staged changes to production database";
        minTrustLevel := L3;
        tool_actionType := "COMMIT_APPLY_CHANGES";
        tool_autoApproveEligible := true;
        tool_risk := HIGH |});
    ("asi.commit_publish_daily_brief",
     {| tool_name := "asi.commit_publish_daily_brief";
        tool_description := "Publish daily operations brief to recipients";
        minTrustLevel := L3;
        tool_actionType := "COMMIT_PUBLISH_DAILY_BRIEF";
        tool_autoApproveEligible := true;
        tool_risk := MEDIUM |});
    ("asi.commit_post_alert",
     {| tool_name := "asi.commit_post_alert";
        tool_description := "Post an alert to notification channels";
        minTrustLevel := L3;
        tool_actionType := "COMMIT_POST_ALERT";
        tool_autoApproveEligible := true;
        tool_risk := MEDIUM |});
    ("asi.commit_mark_checkpoint_complete",
     {| tool_name := "asi.commit_mark_checkpoint_complete";
        tool_description := "Mark a compliance checkpoint as complete";
        minTrustLevel := L3;
        tool_actionType := "COMMIT_MARK_CHECKPOINT_COMPLETE";
        tool_autoApproveEligible := false;
        tool_risk := HIGH |});
    ("asi.commit_send_invoice",
     {| tool_name := "asi.commit_send_invoice";
        tool_description := "Send billing invoice to customer";
        minTrustLevel := L4;
        tool_actionType := "COMMIT_SEND_INVOICE";
        tool_autoApproveEligible := false;
        tool_risk := CRITICAL |}) ]%string.

(** The own properties of the registry object, keyed by tool name. *)
Definition COMMIT_TOOLS : gmap string CommitToolDefinition :=
  list_to_map COMMIT_TOOL_LIST.

(** [getCommitTool]: [COMMIT_TOOLS[toolName]]. *)
Definition getCommitTool (toolName : string) : Property CommitToolDefinition :=
  object_get COMMIT_TOOLS toolName.

(** [isCommitTool]: [toolName in COMMIT_TOOLS]. *)
Definition isCommitTool (toolName : string) : bool :=
  object_has COMMIT_TOOLS toolName.

(** The properties the callers read on what [getCommitTool] found. A member
    of [Object.prototype] has none of them: the read yields [undefined]. *)
Definition actionType_of (toolDef : Property CommitToolDefinition)
  : option string :=
  match toolDef with Own d => Some (tool_actionType d) | _ => None end.

Definition minTrustLevel_of (toolDef : Property CommitToolDefinition)
  : option TrustLevel :=
  match toolDef with Own d => Some (minTrustLevel d) | _ => None end.

Definition autoApproveEligible_of (toolDef : Property CommitToolDefinition)
  : option bool :=
  match toolDef with Own d => Some (tool_autoApproveEligible d) | _ => None end.

Record CommitEligibilityResult := {
  eligible : bool;
  reason : option string;
  approvalRequest : option Approvals.ApprovalRequest;
  stagedChanges : option (list Sandbox.StagedChange);
}.

Definition deny (reason : string) (r : option Approvals.ApprovalRequest)
  : CommitEligibilityResult :=
  {| eligible := false; reason := Some reason;
     approvalRequest := r; stagedChanges := None |}.

(** The collaborators of a [CommitToolBoundary], seen through the two
    methods [verifyCommitEligibility] calls. *)
Record Boundary := {
  store_getRequestsByRunId : string -> outcome (list Approvals.ApprovalRequest);
  sandbox_getStagedChanges : string -> outcome (list Sandbox.StagedChange);
}.

Section CommitToolBoundary.

(** How a [Date] prints inside a template string (it depends on the time
    zone of the process). *)
Variable date_to_string : Z -> string.

(** The callback of [requests.find]:
    [r.actionType === toolDef.actionType || r.actionType === toolName]. *)
Definition matches_tool (toolDef : Property CommitToolDefinition)
    (toolName : string) (r : Approvals.ApprovalRequest) : bool :=
  match actionType_of toolDef with
  | Some actionType => String.eqb (Approvals.actionType r) actionType
  | None => false
  end
  || String.eqb (Approvals.actionType r) toolName.

(** [approvalRequest.context?.sandboxId] *)
Definition context_sandboxId (r : Approvals.ApprovalRequest) : option string :=
  match Approvals.context r with
  | Some c => Approvals.ctx_sandboxId c
  | None => None
  end.

(** [CommitToolBoundary.verifyCommitEligibility]; [now] is the clock read by
    gate 7. *)
Definition verifyCommitEligibility (b : Boundary) (now : Z)
    (runId toolName : string) : CommitEligibilityResult :=
  (* GATE 1 *)
  if negb (truthy runId) then deny "FAIL CLOSED: Invalid or missing runId" None
  else if negb (truthy toolName) then
    deny "FAIL CLOSED: Invalid or missing toolName" None
  else
  (* GATE 2 *)
  match getCommitTool toolName with
  | Undefined =>
      deny ("FAIL CLOSED: '" +:+ toolName +:+ "' is not a registered commit tool. "
            +:+ "Only commit tools can make irreversible changes.") None
  | toolDef =>
  (* GATE 3 *)
  match store_getRequestsByRunId b runId with
  | Throw e =>
      deny ("FAIL CLOSED: Failed to query approval store - " +:+ e) None
  | Ok requests =>
  if bool_decide (requests = []) then
    deny ("FAIL CLOSED: No approval request found for run " +:+ runId +:+ ". "
          +:+ "All commit operations require prior approval.") None
  else
  match List.find (matches_tool toolDef toolName) requests with
  | None =>
      deny ("FAIL CLOSED: No approval request found for action type '"
            +:+ or_undefined (actionType_of toolDef) +:+ "'. "
            +:+ "Approval must be requested before commit.") None
  | Some approvalRequest =>
  (* GATE 4 *)
  if trust_index (Approvals.trustLevel approvalRequest)
     <? default (-1) (trust_index <$> minTrustLevel_of toolDef) then
    deny ("FAIL CLOSED: Trust level "
          +:+ TrustLevel_str (Approvals.trustLevel approvalRequest)
          +:+ " is below required "
          +:+ or_undefined (TrustLevel_str <$> minTrustLevel_of toolDef)
          +:+ " for " +:+ toolName) (Some approvalRequest)
  (* GATE 5 *)
  else if bool_decide (Approvals.status approvalRequest <> APPROVED) then
    deny ("FAIL CLOSED: Approval status is '"
          +:+ ApprovalStatus_str (Approvals.status approvalRequest)
          +:+ "', must be 'APPROVED'. "
          +:+ "Commit operations require explicit approval.") (Some approvalRequest)
  (* GATE 6 *)
  else if bool_decide (Approvals.reviewerVerdict approvalRequest <> Some PASS) then
    deny ("FAIL CLOSED: Reviewer verdict is '"
          +:+ default "missing"
                (ReviewerVerdict_str <$> Approvals.reviewerVerdict approvalRequest)
          +:+ "', must be 'PASS'. "
          +:+ "All commits require reviewer approval.") (Some approvalRequest)
  (* GATE 7 *)
  else if Approvals.expiresAt approvalRequest <? now then
    deny ("FAIL CLOSED: Approval request has expired at "
          +:+ date_to_string (Approvals.expiresAt approvalRequest) +:+ ". "
          +:+ "A new approval must be requested.") (Some approvalRequest)
  (* GATE 8 *)
  else
  let granted staged :=
    {| eligible := true; reason := None;
       approvalRequest := Some approvalRequest; stagedChanges := staged |} in
  if String.eqb toolName "asi.commit_apply_changes" then
    match context_sandboxId approvalRequest with
    | Some sandboxId =>
        if truthy sandboxId then
          match sandbox_getStagedChanges b sandboxId with
          | Throw e =>
              deny ("FAIL CLOSED: Failed to get staged changes - " +:+ e)
                   (Some approvalRequest)
          | Ok changes =>
              if bool_decide (changes = []) then
                deny ("FAIL CLOSED: No staged changes found to commit. "
                      +:+ "Changes must be staged before commit_apply_changes.")
                     (Some approvalRequest)
              else granted (Some changes)
          end
        else granted None
    | None => granted None
    end
  else granted None
  end end end.

End CommitToolBoundary.

End CommitTools.

(** ** trust-gates.ts *)

Module TrustGates.
Import Schemas.

(** [toolOverrides] is a plain object; the field holds its own properties. *)
Record TrustGateConfig := {
  cfg_domain : Domain;
  defaultTrustLevel : TrustLevel;
  requireApprovalAbove : TrustLevel;
  sandboxWriteOps : bool;
  toolOverrides : option (gmap string TrustLevel);
}.

(** What [getTrustLevelForTool] returns and the gate carries as
    [trustLevel]: a trust level or, for a tool named like a member of
    [Object.prototype] when the configuration has an override table without
    an entry of that name, that member, which [toolOverrides[tool.name]]
    finds and which is truthy. *)
Inductive LevelValue :=
| Level (l : TrustLevel)
| MemberValue (key : string).

#[export] Instance LevelValue_eq_dec : EqDecision LevelValue.
Proof. solve_decision. Defined.

(** [TRUST_ORDER.indexOf(v)]: [-1] for what is not a trust level. *)
Definition level_index (v : LevelValue) : Z :=
  match v with Level l => trust_index l | MemberValue _ => -1 end.

(** A value inside a template string. A member of [Object.prototype] prints
    as Node prints a built-in function, and the prototype itself as an
    object. *)
Definition LevelValue_str (v : LevelValue) : string :=
  match v with
  | Level l => TrustLevel_str l
  | MemberValue key =>
      if String.eqb key "__proto__" then "[object Object]"
      else "function "
           +:+ (if String.eqb key "constructor" then "Object" else key)
           +:+ "() { [native code] }"
  end.

Record StagePolicy := {
  maxTrustLevel : TrustLevel;
  allowedCapabilities : list ToolCapability;
  policy_sandboxed : option bool;
  requiresReviewerApproval : option bool;
}.

Record TrustGate := {
  config : TrustGateConfig;
  stagePolicies : WorkflowStage -> StagePolicy;
}.

Definition DEFAULT_STAGE_POLICIES (stage : WorkflowStage) : StagePolicy :=
  match stage with
  | plan =>
      {| maxTrustLevel := L1; allowedCapabilities := [READ; PROPOSE];
         policy_sandboxed := None; requiresReviewerApproval := None |}
  | execute =>
      {| maxTrustLevel := L2; allowedCapabilities := [READ; PROPOSE; WRITE];
         policy_sandboxed := Some true; requiresReviewerApproval := None |}
  | review =>
      {| maxTrustLevel := L1; allowedCapabilities := [READ; PROPOSE];
         policy_sandboxed := None; requiresReviewerApproval := None |}
  | commit =>
      {| maxTrustLevel := L4;
         allowedCapabilities := [READ; PROPOSE; WRITE; SIDE_EFFECTS];
         policy_sandboxed := Some true; requiresReviewerApproval := Some true |}
  end.

Record TrustGateResult := {
  allowed : bool;
  reason : option string;
  requiresApproval : bool;
  approvalId : option string;
  approvalStatus : option ApprovalStatus;
  sandboxed : bool;
  trustLevel : LevelValue;
  isCommitTool : bool;
  requiresReviewerVerdict : bool;
  autoApproveEligible : bool;
}.

(** The context of an evaluation; the approval store is seen through the
    one method the gate calls, [getRequestsByRunId]. *)
Record TrustGateContext := {
  agentName : string;
  runId : string;
  approvalStore : option (string -> outcome (list Approvals.ApprovalRequest));
  workflowName : option string;
  reviewerVerdict : option ReviewerVerdict;
}.

Definition WorkflowStage_str (s : WorkflowStage) : string :=
  match s with
  | plan => "plan" | execute => "execute" | review => "review" | commit => "commit"
  end.

Definition ToolCapability_str (c : ToolCapability) : string :=
  match c with
  | READ => "READ" | PROPOSE => "PROPOSE" | WRITE => "WRITE"
  | SIDE_EFFECTS => "SIDE_EFFECTS"
  end.

(** [array.join(sep)] *)
Fixpoint join (sep : string) (l : list string) : string :=
  match l with
  | [] => ""
  | [x] => x
  | x :: l' => x +:+ sep +:+ join sep l'
  end.

(** [createDenyResult(reason)] with its default trust level [L4]. *)
Definition createDenyResult (reason : string) : TrustGateResult :=
  {| allowed := false; reason := Some reason; requiresApproval := false;
     approvalId := None; approvalStatus := None;
     sandboxed := false; trustLevel := Level L4; isCommitTool := false;
     requiresReviewerVerdict := false; autoApproveEligible := false |}.

(** [validateToolDefinition]: the tests left once the fields are typed. *)
Definition validateToolDefinition (tool : ToolDefinition) : option string :=
  if negb (truthy (name tool)) then
    Some "Tool definition missing required 'name' field"
  else None.

(** [validateContext] *)
Definition validateContext (context : TrustGateContext) : option string :=
  if negb (truthy (agentName context)) then
    Some "Context missing required 'agentName' field"
  else if negb (truthy (runId context)) then
    Some "Context missing required 'runId' field"
  else None.

(** [this.config.toolOverrides?.[tool.name]] *)
Definition override_for (g : TrustGate) (tool : ToolDefinition)
  : Property TrustLevel :=
  match toolOverrides (config g) with
  | Some table => object_get table (name tool)
  | None => Undefined
  end.

(** [TrustGate.getTrustLevelForTool]: what the lookup finds when it is
    truthy (a trust level is a non-empty string), else the level the risk
    and the capability give. *)
Definition getTrustLevelForTool (g : TrustGate) (tool : ToolDefinition)
  : LevelValue :=
  match override_for g tool with
  | Own level => Level level
  | Member key => MemberValue key
  | Undefined =>
      Level
        (if decide (risk tool = CRITICAL) then L4
         else if decide (risk tool = HIGH /\ capability tool = SIDE_EFFECTS) then L3
         else if decide (risk tool = HIGH \/ capability tool = WRITE) then L2
         else if decide (capability tool = PROPOSE) then L1
         else L0)
  end.

(** [compareLevel]; its second argument comes from the configuration or a
    stage policy. *)
Definition compareLevel (a : LevelValue) (b : TrustLevel) : Z :=
  level_index a - trust_index b.

(** [shouldSandbox] *)
Definition shouldSandbox (g : TrustGate) (tool : ToolDefinition)
    (stagePolicy : StagePolicy) : bool :=
  if bool_decide (policy_sandboxed stagePolicy = Some true) then true
  else if sandboxWriteOps (config g)
          && (bool_decide (capability tool = WRITE)
              || bool_decide (capability tool = SIDE_EFFECTS)) then true
  else if bool_decide (executionMode tool = SANDBOX_ONLY) then true
  else false.

(** [TrustGate.evaluate] *)
Definition evaluate (g : TrustGate) (tool : ToolDefinition)
    (stage : WorkflowStage) (context : TrustGateContext) : TrustGateResult :=
  match validateToolDefinition tool with
  | Some toolError => createDenyResult ("FAIL CLOSED: " +:+ toolError)
  | None =>
  match validateContext context with
  | Some contextError => createDenyResult ("FAIL CLOSED: " +:+ contextError)
  | None =>
  let stagePolicy := stagePolicies g stage in
  let trustLevel := getTrustLevelForTool g tool in
  let commitTool := CommitTools.isCommitTool (name tool) in
  let commitToolDef :=
    if commitTool then CommitTools.getCommitTool (name tool) else Undefined in
  if 0 <? compareLevel trustLevel (maxTrustLevel stagePolicy) then
    {| allowed := false;
       reason := Some ("Stage '" +:+ WorkflowStage_str stage
                       +:+ "' does not allow trust level "
                       +:+ LevelValue_str trustLevel +:+ " (max: "
                       +:+ TrustLevel_str (maxTrustLevel stagePolicy) +:+ ")");
       requiresApproval := false; approvalId := None; approvalStatus := None;
       sandboxed := false; trustLevel := trustLevel;
       isCommitTool := commitTool; requiresReviewerVerdict := commitTool;
       autoApproveEligible := false |}
  else if negb (bool_decide (capability tool ∈ allowedCapabilities stagePolicy)) then
    {| allowed := false;
       reason := Some ("Stage '" +:+ WorkflowStage_str stage
                       +:+ "' does not allow capability '"
                       +:+ ToolCapability_str (capability tool) +:+ "' (allowed: "
                       +:+ join ", " (map ToolCapability_str
                                        (allowedCapabilities stagePolicy))
                       +:+ ")");
       requiresApproval := false; approvalId := None; approvalStatus := None;
       sandboxed := false; trustLevel := trustLevel;
       isCommitTool := commitTool; requiresReviewerVerdict := commitTool;
       autoApproveEligible := false |}
  else
    let sandboxed := shouldSandbox g tool stagePolicy in
    let requiresApproval :=
      (0 <? compareLevel trustLevel (requireApprovalAbove (config g)))
      || bool_decide (requiresReviewerApproval stagePolicy = Some true)
      || commitTool in
    let requiresReviewerVerdict :=
      commitTool || bool_decide (requiresReviewerApproval stagePolicy = Some true) in
    let autoApproveEligible :=
      bool_decide (trustLevel = Level L3)
      && bool_decide (CommitTools.autoApproveEligible_of commitToolDef
                      = Some true) in
    if decide (trustLevel = Level L4) then
      {| allowed := false;
         reason := Some ("Human approval required for L4 operations (tool: "
                         +:+ name tool +:+ ")");
         requiresApproval := true; approvalId := None; approvalStatus := None;
         sandboxed := sandboxed; trustLevel := trustLevel;
         isCommitTool := commitTool;
         requiresReviewerVerdict := requiresReviewerVerdict;
         autoApproveEligible := false |}
    else if commitTool && bool_decide (stage = commit) then
      {| allowed := false;
         reason := Some "Commit tool requires approval check";
         requiresApproval := true; approvalId := None; approvalStatus := None;
         sandboxed := sandboxed; trustLevel := trustLevel;
         isCommitTool := true; requiresReviewerVerdict := true;
         autoApproveEligible := autoApproveEligible |}
    else
      {| allowed := true; reason := None;
         requiresApproval := requiresApproval;
         approvalId := None; approvalStatus := None;
         sandboxed := sandboxed; trustLevel := trustLevel;
         isCommitTool := commitTool;
         requiresReviewerVerdict := requiresReviewerVerdict;
         autoApproveEligible := autoApproveEligible |}
  end end.

(** [{ ...basicResult, allowed, reason, approvalId, approvalStatus }] *)
Definition with_decision (basic : TrustGateResult) (allowed : bool)
    (reason : option string) (approvalId : option string)
    (approvalStatus : option ApprovalStatus) : TrustGateResult :=
  {| allowed := allowed; reason := reason;
     requiresApproval := requiresApproval basic;
     approvalId := approvalId; approvalStatus := approvalStatus;
     sandboxed := sandboxed basic; trustLevel := trustLevel basic;
     isCommitTool := isCommitTool basic;
     requiresReviewerVerdict := requiresReviewerVerdict basic;
     autoApproveEligible := autoApproveEligible basic |}.

Definition with_autoApproveEligible (r : TrustGateResult) (b : bool)
  : TrustGateResult :=
  {| allowed := allowed r; reason := reason r;
     requiresApproval := requiresApproval r;
     approvalId := approvalId r; approvalStatus := approvalStatus r;
     sandboxed := sandboxed r; trustLevel := trustLevel r;
     isCommitTool := isCommitTool r;
     requiresReviewerVerdict := requiresReviewerVerdict r;
     autoApproveEligible := b |}.

(** The callback of [requests.find] in [evaluateWithApproval]. *)
Definition relevant_to (tool : ToolDefinition) (r : Approvals.ApprovalRequest)
  : bool :=
  String.eqb (Approvals.actionType r) (name tool)
  || includes (Approvals.actionType r) (last_segment (name tool)).

(** [status.toLowerCase()] *)
Definition ApprovalStatus_lower (s : ApprovalStatus) : string :=
  match s with
  | PENDING => "pending" | APPROVED => "approved"
  | REJECTED => "rejected" | EXPIRED => "expired"
  end.

(** [TrustGate.evaluateWithApproval]. The method reads no clock. *)
Definition evaluateWithApproval (g : TrustGate) (tool : ToolDefinition)
    (stage : WorkflowStage) (context : TrustGateContext) : TrustGateResult :=
  let basicResult := evaluate g tool stage context in
  if negb (allowed basicResult) && negb (requiresApproval basicResult) then
    basicResult
  else
  match approvalStore context with
  | None => basicResult
  | Some getRequestsByRunId =>
  if negb (requiresApproval basicResult) then basicResult
  else
  match getRequestsByRunId (runId context) with
  | Throw e =>
      with_decision basicResult false
        (Some ("FAIL CLOSED: Approval store error - " +:+ e))
        (approvalId basicResult) (approvalStatus basicResult)
  | Ok requests =>
  match List.find (relevant_to tool) requests with
  | None =>
      with_decision basicResult false (Some "Approval request required")
        (approvalId basicResult) (approvalStatus basicResult)
  | Some relevantRequest =>
      let id := Some (Approvals.req_id relevantRequest) in
      if decide (Approvals.status relevantRequest = APPROVED) then
        if requiresReviewerVerdict basicResult
           && bool_decide (Approvals.reviewerVerdict relevantRequest <> Some PASS)
        then
          with_decision basicResult false
            (Some ("Reviewer verdict is "
                   +:+ default "missing"
                         (ReviewerVerdict_str
                            <$> Approvals.reviewerVerdict relevantRequest)
                   +:+ ", expected PASS"))
            id (Some (Approvals.status relevantRequest))
        else
          with_decision basicResult true (reason basicResult) id (Some APPROVED)
      else if decide (Approvals.status relevantRequest = PENDING) then
        if autoApproveEligible basicResult
           && bool_decide (reviewerVerdict context = Some PASS)
           && Approvals.autoApproveEligible relevantRequest
        then
          with_autoApproveEligible
            (with_decision basicResult false
               (Some "Pending approval (auto-approve eligible)") id (Some PENDING))
            true
        else
          with_decision basicResult false (Some "Awaiting human approval")
            id (Some PENDING)
      else
        with_decision basicResult false
          (Some ("Approval "
                 +:+ ApprovalStatus_lower (Approvals.status relevantRequest)))
          id (Some (Approvals.status relevantRequest))
  end end end.

End TrustGates.

(** ** orchestrator.ts *)

Module Orchestrator.
Import Schemas.

(** The fields of the router's [ToolCallResult] the orchestrator reads. *)
Record ToolCallResult := {
  tc_success : bool;
  tc_result : option JsonValue;
  tc_error : option string;
  tc_trustGateResult : TrustGates.TrustGateResult;
  tc_sandboxId : option string;
  tc_approvalRequestId : option string;
}.

Inductive RunStatus := completed | failed | requires_approval.

#[export] Instance RunStatus_eq_dec : EqDecision RunStatus.
Proof. solve_decision. Defined.

Definition RunStatus_str (s : RunStatus) : string :=
  match s with
  | completed => "completed" | failed => "failed"
  | requires_approval => "requires_approval"
  end.

Record AgentRunResult := {
  output : option string;                 (* the text block, or null *)
  toolCalls : list (string * ToolCallResult);
  run_status : RunStatus;
  run_error : option string;
  run_approvalRequestId : option string;
  run_reviewerVerdict : option ReviewerVerdict;
}.

Record WorkflowRunOptions := {
  opt_input : string;
  opt_runId : option string;
  opt_context : option (list (string * JsonValue));
  opt_reviewerVerdict : option ReviewerVerdict;
  opt_reviewerNotes : option string;
}.

(** An audit event handed to [logger.log]. *)
Record AgentActionEventInput := {
  ev_domain : Domain;
  ev_workflowName : string;
  ev_agentName : string;
  ev_runId : string;
  ev_trustLevel : TrustLevel;
  ev_stage : WorkflowStage;
  ev_intent : string;
  ev_warnings : option (list string);
  ev_errors : option (list string);
  ev_summary : option string;
}.

(** [finalResult : unknown]: unassigned, [null], or a text. *)
Inductive FinalResult := ResultUndefined | ResultNull | ResultText (s : string).

Definition result_of_output (o : option string) : FinalResult :=
  match o with Some s => ResultText s | None => ResultNull end.

(** The object [createApprovalRequest] hands to
    [approvalStore.createRequest]. Its trust level and action type are read
    on the commit tool looked up by name and are [undefined] when the
    lookup found a member of [Object.prototype]; the payload is the trust
    gate result of the tool call itself. *)
Record ApprovalRequestInput := {
  ari_domain : Domain;
  ari_runId : string;
  ari_workflowName : string;
  ari_requestedBy : string;
  ari_trustLevel : option TrustLevel;
  ari_actionType : option string;
  ari_actionPayload : TrustGates.TrustGateResult;
  ari_toolName : string;                 (* context.toolName *)
  ari_toolArgs : option JsonValue;       (* context.toolArgs *)
  ari_sandboxId : option string;         (* context.sandboxId *)
  ari_reviewerVerdict : option ReviewerVerdict;
  ari_reviewerNotes : option string;
}.

(** What a run does, in the order it does it. *)
Inductive Action :=
| ActLog (e : AgentActionEventInput)
| ActRunAgent (stage : WorkflowStage) (agent : AgentDefinition)
    (verdict_in : option ReviewerVerdict) (res : outcome AgentRunResult)
| ActCreateRequest (input : ApprovalRequestInput)
| ActAutoApprove (id : string).

Record WorkflowResult := {
  res_runId : string;
  res_result : FinalResult;
  res_status : RunStatus;
  res_error : option string;
  res_approvalRequestId : option string;
  res_reviewerVerdict : option ReviewerVerdict;
  res_actions : list Action;
}.

(** [validateWorkflowDefinition]: the tests left once the fields are typed. *)
Definition validateWorkflowDefinition (w : WorkflowDefinition) : option string :=
  if negb (truthy (wf_name w)) then
    Some "Workflow definition missing required 'name' field"
  else if bool_decide (agents w = []) then
    Some "Workflow definition missing or empty 'agents' array"
  else if bool_decide (stages w = []) then
    Some "Workflow definition missing or empty 'stages' array"
  else None.

(** [array.indexOf(x)], [-1] when absent. *)
Fixpoint indexOf (l : list WorkflowStage) (x : WorkflowStage) : Z :=
  match l with
  | [] => -1
  | y :: l' =>
      if decide (y = x) then 0
      else let i := indexOf l' x in if i <? 0 then -1 else i + 1
  end.

Definition roleForStage (stage : WorkflowStage) : AgentRole :=
  match stage with
  | plan => planner | execute => worker | review => reviewer | commit => worker
  end.

(** [getAgentForStage] *)
Definition getAgentForStage (agents : list AgentDefinition)
    (stage : WorkflowStage) : option AgentDefinition :=
  List.find (fun a => bool_decide (role a = roleForStage stage)) agents.

Section AgentOrchestrator.

(** The approval store behind the [ApprovalStore] interface: its state and
    the two methods the orchestrator calls. *)
Variable S : Type.
Variable store_createRequest :
  S -> ApprovalRequestInput -> outcome Approvals.ApprovalRequest * S.
Variable store_autoApprove :
  S -> string -> string -> outcome (option Approvals.ApprovalDecision) * S.

(** [runAgent]: the language model and the tool router answer; the first
    argument counts the agent runs made so far in the workflow run. *)
Variable runAgent :
  nat -> AgentDefinition -> WorkflowStage -> string -> option ReviewerVerdict ->
  outcome AgentRunResult.

(** Whether the orchestrator was built with an approval store. *)
Variable has_store : bool.

Record LoopState := {
  ls_context : string;
  ls_finalResult : FinalResult;
  ls_finalStatus : RunStatus;
  ls_finalError : option string;
  ls_approvalRequestId : option string;
  ls_reviewerVerdict : option ReviewerVerdict;
  ls_actions : list Action;
  ls_store : S;
  ls_runs : nat;
}.

Definition event (w : WorkflowDefinition) (runId agentName : string)
    (level : TrustLevel) (stage : WorkflowStage) (intent : string)
    (warnings errors : option (list string)) (summary : option string)
  : AgentActionEventInput :=
  {| ev_domain := wf_domain w; ev_workflowName := wf_name w;
     ev_agentName := agentName; ev_runId := runId; ev_trustLevel := level;
     ev_stage := stage; ev_intent := intent; ev_warnings := warnings;
     ev_errors := errors; ev_summary := summary |}.

Definition add_action (st : LoopState) (a : Action) : LoopState :=
  {| ls_context := ls_context st; ls_finalResult := ls_finalResult st;
     ls_finalStatus := ls_finalStatus st; ls_finalError := ls_finalError st;
     ls_approvalRequestId := ls_approvalRequestId st;
     ls_reviewerVerdict := ls_reviewerVerdict st;
     ls_actions := ls_actions st ++ [a];
     ls_store := ls_store st; ls_runs := ls_runs st |}.

Definition set_outcome (st : LoopState) (status : RunStatus)
    (res : FinalResult) (err : option string) : LoopState :=
  {| ls_context := ls_context st; ls_finalResult := res;
     ls_finalStatus := status; ls_finalError := err;
     ls_approvalRequestId := ls_approvalRequestId st;
     ls_reviewerVerdict := ls_reviewerVerdict st;
     ls_actions := ls_actions st;
     ls_store := ls_store st; ls_runs := ls_runs st |}.

Definition set_verdict (st : LoopState) (v : option ReviewerVerdict) : LoopState :=
  {| ls_context := ls_context st; ls_finalResult := ls_finalResult st;
     ls_finalStatus := ls_finalStatus st; ls_finalError := ls_finalError st;
     ls_approvalRequestId := ls_approvalRequestId st;
     ls_reviewerVerdict := v;
     ls_actions := ls_actions st;
     ls_store := ls_store st; ls_runs := ls_runs st |}.

Definition set_approvalRequestId (st : LoopState) (id : option string) : LoopState :=
  {| ls_context := ls_context st; ls_finalResult := ls_finalResult st;
     ls_finalStatus := ls_finalStatus st; ls_finalError := ls_finalError st;
     ls_approvalRequestId := id;
     ls_reviewerVerdict := ls_reviewerVerdict st;
     ls_actions := ls_actions st;
     ls_store := ls_store st; ls_runs := ls_runs st |}.

Definition set_store (st : LoopState) (s : S) : LoopState :=
  {| ls_context := ls_context st; ls_finalResult := ls_finalResult st;
     ls_finalStatus := ls_finalStatus st; ls_finalError := ls_finalError st;
     ls_approvalRequestId := ls_approvalRequestId st;
     ls_reviewerVerdict := ls_reviewerVerdict st;
     ls_actions := ls_actions st;
     ls_store := s; ls_runs := ls_runs st |}.

Definition count_run (st : LoopState) : LoopState :=
  {| ls_context := ls_context st; ls_finalResult := ls_finalResult st;
     ls_finalStatus := ls_finalStatus st; ls_finalError := ls_finalError st;
     ls_approvalRequestId := ls_approvalRequestId st;
     ls_reviewerVerdict := ls_reviewerVerdict st;
     ls_actions := ls_actions st;
     ls_store := ls_store st; ls_runs := Datatypes.S (ls_runs st) |}.

Definition set_context (st : LoopState) (c : string) (res : FinalResult)
  : LoopState :=
  {| ls_context := c; ls_finalResult := res;
     ls_finalStatus := ls_finalStatus st; ls_finalError := ls_finalError st;
     ls_approvalRequestId := ls_approvalRequestId st;
     ls_reviewerVerdict := ls_reviewerVerdict st;
     ls_actions := ls_actions st;
     ls_store := ls_store st; ls_runs := ls_runs st |}.

(** [createApprovalRequest]: the request summary (its id, eligibility and
    action type) or [null], with the store and the actions taken. *)
Definition createApprovalRequest (w : WorkflowDefinition) (runId agentName : string)
    (stageResult : AgentRunResult) (verdict : option ReviewerVerdict)
    (reviewerNotes : option string) (st : LoopState)
  : option (string * bool * option string) * LoopState :=
  if negb has_store then (None, st)
  else
    match List.find (fun tc => CommitTools.isCommitTool (fst tc))
                    (toolCalls stageResult) with
    | None => (None, st)
    | Some commitToolCall =>
        match CommitTools.getCommitTool (fst commitToolCall) with
        | Undefined => (None, st)
        | commitToolDef =>
            let input :=
              {| ari_domain := wf_domain w;
                 ari_runId := runId;
                 ari_workflowName := wf_name w;
                 ari_requestedBy := agentName;
                 ari_trustLevel := CommitTools.minTrustLevel_of commitToolDef;
                 ari_actionType := CommitTools.actionType_of commitToolDef;
                 ari_actionPayload := tc_trustGateResult (snd commitToolCall);
                 ari_toolName := fst commitToolCall;
                 ari_toolArgs := tc_result (snd commitToolCall);
                 ari_sandboxId := tc_sandboxId (snd commitToolCall);
                 ari_reviewerVerdict := verdict;
                 ari_reviewerNotes := reviewerNotes |} in
            let st := add_action st (ActCreateRequest input) in
            match store_createRequest (ls_store st) input with
            | (Ok request, s') =>
                (Some (Approvals.req_id request,
                       Approvals.autoApproveEligible request,
                       CommitTools.actionType_of commitToolDef),
                 set_store st s')
            | (Throw _, s') => (None, set_store st s')
            end
        end
    end.

(** How one turn of the stage loop ends. *)
Inductive LoopExit :=
| Next            (* fall through or [continue]: go on with the next stage *)
| Break           (* [break] *)
| Raised (message : string).  (* an exception reaches the [catch] *)

(** The body of [for (const stage of workflow.stages)]. *)
Definition run_stage (w : WorkflowDefinition) (options : WorkflowRunOptions)
    (runId : string) (stage : WorkflowStage) (st : LoopState)
  : LoopExit * LoopState :=
  match getAgentForStage (agents w) stage with
  | None =>
      let err := "FAIL CLOSED: No agent defined for required stage '"
                 +:+ TrustGates.WorkflowStage_str stage +:+ "'" in
      let st := set_outcome st failed (ls_finalResult st) (Some err) in
      (Break,
       add_action st
         (ActLog (event w runId "orchestrator" L0 stage
                    ("FAIL CLOSED: Missing agent for stage '"
                     +:+ TrustGates.WorkflowStage_str stage +:+ "'")
                    None (Some [err]) None)))
  | Some agent =>
  if bool_decide (stage = commit) && bool_decide (ls_reviewerVerdict st = None) then
    let err :=
      "FAIL CLOSED: Commit stage requires reviewer verdict but none was provided" in
    let st := set_outcome st failed (ls_finalResult st) (Some err) in
    (Break,
     add_action st
       (ActLog (event w runId "orchestrator" L0 commit
                  "FAIL CLOSED: Missing reviewer verdict for commit"
                  None (Some [err]) None)))
  else
  let answer :=
    runAgent (ls_runs st) agent stage (ls_context st) (ls_reviewerVerdict st) in
  let st :=
    count_run (add_action st
                 (ActRunAgent stage agent (ls_reviewerVerdict st) answer)) in
  match answer with
  | Throw e => (Raised e, st)
  | Ok stageResult =>
  (* Capture reviewer verdict from review stage *)
  let st :=
    if bool_decide (stage = review) then
      match run_reviewerVerdict stageResult with
      | Some v => set_verdict st (Some v)
      | None => st
      end
    else st in
  if bool_decide (stage = review)
     && bool_decide (run_reviewerVerdict stageResult = Some FAIL) then
    let st :=
      set_outcome st failed (result_of_output (output stageResult))
        (Some "Reviewer verdict: FAIL - commit stage blocked") in
    (Break,
     add_action st
       (ActLog (event w runId "orchestrator" L0 review
                  "Workflow blocked: reviewer verdict FAIL"
                  (Some ["Commit stage blocked due to reviewer FAIL verdict"])
                  None (substring 0 500 <$> output stageResult))))
  else
  (* Check if stage requires approval *)
  if bool_decide (run_status stageResult = requires_approval) then
    let st :=
      set_outcome st requires_approval (result_of_output (output stageResult))
        (ls_finalError st) in
    let st := set_approvalRequestId st (run_approvalRequestId stageResult) in
    let paused st :=
      (Break,
       add_action st
         (ActLog (event w runId (agent_name agent) L3 stage
                    "Workflow paused: requires human approval"
                    (Some ["Approval required to continue"]) None None))) in
    if has_store
       && negb (bool_decide (truthy <$> run_approvalRequestId stageResult = Some true))
       && bool_decide (stage = commit) then
      let '(request, st) :=
        createApprovalRequest w runId (agent_name agent) stageResult
          (ls_reviewerVerdict st) (opt_reviewerNotes options) st in
      let st := set_approvalRequestId st ((fun r => fst (fst r)) <$> request) in
      match request with
      | Some (id, true, actionType) =>
          if bool_decide (ls_reviewerVerdict st = Some PASS) then
            let st := add_action st (ActAutoApprove id) in
            match store_autoApprove (ls_store st) id
                    "Auto-approved: reviewer PASS + eligible action type" with
            | (Throw e, s') => (Raised e, set_store st s')
            | (Ok None, s') => paused (set_store st s')
            | (Ok (Some _), s') =>
                let st := set_store st s' in
                let st :=
                  set_outcome st completed (ls_finalResult st) (ls_finalError st) in
                let st := set_approvalRequestId st (Some id) in
                (Next,
                 add_action st
                   (ActLog (event w runId "orchestrator" L3 stage
                              "Auto-approved commit operation" None None
                              (Some ("Auto-approved: " +:+ or_undefined actionType)))))
            end
          else paused st
      | _ => paused st
      end
    else paused st
  else
  (* Check if stage failed *)
  if bool_decide (run_status stageResult = failed) then
    let st := set_outcome st failed ResultNull (run_error stageResult) in
    (Break,
     add_action st
       (ActLog (event w runId (agent_name agent) L0 stage
                  ("Stage '" +:+ TrustGates.WorkflowStage_str stage +:+ "' failed")
                  None (Some [default "Unknown error" (run_error stageResult)])
                  None)))
  else
  (* Pass output to next stage *)
  (Next,
   set_context st (default "null" (output stageResult))
     (result_of_output (output stageResult)))
  end end.

(** The stage loop. *)
Fixpoint run_stages (w : WorkflowDefinition) (options : WorkflowRunOptions)
    (runId : string) (stages : list WorkflowStage) (st : LoopState)
  : LoopExit * LoopState :=
  match stages with
  | [] => (Next, st)
  | stage :: rest =>
      match run_stage w options runId stage st with
      | (Next, st') => run_stages w options runId rest st'
      | exit => exit
      end
  end.

Definition early_failure (runId message : string) : WorkflowResult :=
  {| res_runId := runId; res_result := ResultNull; res_status := failed;
     res_error := Some message; res_approvalRequestId := None;
     res_reviewerVerdict := None; res_actions := [] |}.

Definition finish (runId : string) (st : LoopState) : WorkflowResult * S :=
  ({| res_runId := runId; res_result := ls_finalResult st;
      res_status := ls_finalStatus st; res_error := ls_finalError st;
      res_approvalRequestId := ls_approvalRequestId st;
      res_reviewerVerdict := ls_reviewerVerdict st;
      res_actions := ls_actions st |}, ls_store st).

(** The [catch] block of [runWorkflow]. *)
Definition caught (w : WorkflowDefinition) (runId message : string)
    (st : LoopState) : LoopState :=
  add_action (set_outcome st failed (ls_finalResult st) (Some message))
    (ActLog (event w runId "orchestrator" L0 commit "Workflow failed with error"
               None (Some [message]) None)).

(** [AgentOrchestrator.runWorkflow]; [uuid] is the run id drawn when the
    options give none. *)
Definition runWorkflow (s : S) (uuid : string) (w : WorkflowDefinition)
    (options : WorkflowRunOptions) : WorkflowResult * S :=
  let runId := default uuid (opt_runId options) in
  match validateWorkflowDefinition w with
  | Some workflowError =>
      (early_failure runId ("FAIL CLOSED: " +:+ workflowError), s)
  | None =>
  let commitIndex := indexOf (stages w) commit in
  let reviewIndex := indexOf (stages w) review in
  if negb (commitIndex =? -1)
     && ((reviewIndex =? -1) || (commitIndex <? reviewIndex)) then
    (early_failure runId
       "FAIL CLOSED: Commit stage requires review stage to precede it", s)
  else
  let st :=
    {| ls_context := opt_input options;
       ls_finalResult := ResultUndefined;
       ls_finalStatus := completed;
       ls_finalError := None;
       ls_approvalRequestId := None;
       ls_reviewerVerdict := opt_reviewerVerdict options;
       ls_actions :=
         [ActLog (event w runId "orchestrator" L0 plan
                    ("Starting workflow: " +:+ wf_name w) None None None)];
       ls_store := s;
       ls_runs := 0%nat |} in
  match run_stages w options runId (stages w) st with
  | (Raised e, st) => finish runId (caught w runId e st)
  | (_, st) =>
      (* Log workflow completion; [JSON.stringify(undefined).slice] throws *)
      match ls_finalResult st with
      | ResultUndefined =>
          finish runId
            (caught w runId
               "Cannot read properties of undefined (reading 'slice')" st)
      | ResultNull =>
          finish runId
            (add_action st
               (ActLog (event w runId "orchestrator" L0 commit
                          ("Workflow completed with status: "
                           +:+ RunStatus_str (ls_finalStatus st))
                          None None (Some "null"))))
      | ResultText t =>
          finish runId
            (add_action st
               (ActLog (event w runId "orchestrator" L0 commit
                          ("Workflow completed with status: "
                           +:+ RunStatus_str (ls_finalStatus st))
                          None None (Some (substring 0 500 t)))))
      end
  end
  end.

End AgentOrchestrator.

(** *** Reading a run *)

(** An agent run of the review stage that produced the verdict FAIL. *)
Definition review_failed (a : Action) : bool :=
  match a with
  | ActRunAgent review _ _ (Ok res) =>
      bool_decide (run_reviewerVerdict res = Some FAIL)
  | _ => false
  end.

(** What entering the commit stage consists of: a run of the commit-stage
    agent, the creation of an approval request, an auto-approval. *)
Definition commit_activity (a : Action) : bool :=
  match a with
  | ActRunAgent commit _ _ _ => true
  | ActCreateRequest _ => true
  | ActAutoApprove _ => true
  | _ => false
  end.

Definition is_log (a : Action) : bool :=
  match a with ActLog _ => true | _ => false end.

(** The audit event of a blocked commit. *)
Definition is_blocked_event (a : Action) : bool :=
  match a with
  | ActLog e =>
      String.eqb (ev_intent e) "Workflow blocked: reviewer verdict FAIL"
      && bool_decide (ev_warnings e
                      = Some ["Commit stage blocked due to reviewer FAIL verdict"%string])
      && bool_decide (ev_stage e = review)
      && String.eqb (ev_agentName e) "orchestrator"
  | _ => false
  end.

(** No review stage comes after a commit stage in the list. *)
Fixpoint reviews_precede_commits (stages : list WorkflowStage) : bool :=
  match stages with
  | [] => true
  | stage :: rest =>
      (if decide (stage = commit)
       then negb (bool_decide (review ∈ rest)) else true)
      && reviews_precede_commits rest
  end.

End Orchestrator.

(** ** Sample data used by the examples *)

Module Samples.
Import Schemas.

(** A format test standing for the one of the validation library: the
    canonical length of a UUID. *)
Definition sample_is_uuid (s : string) : bool := (String.length s =? 36)%nat.

Definition run_1 : string := "11111111-1111-4111-8111-111111111111".
Definition req_1 : string := "22222222-2222-4222-8222-222222222222".
Definition dec_1 : string := "33333333-3333-4333-8333-333333333333".
Definition dec_2 : string := "44444444-4444-4444-8444-444444444444".

Definition request_input (level : TrustLevel) (action : string)
    (verdict : option ReviewerVerdict) : Approvals.CreateApprovalRequestInput :=
  {| Approvals.in_domain := Some asi;
     Approvals.in_runId := run_1;
     Approvals.in_workflowName := "test_workflow";
     Approvals.in_requestedBy := "test_agent";
     Approvals.in_trustLevel := level;
     Approvals.in_actionType := action;
     Approvals.in_actionPayload := [];
     Approvals.in_context := None;
     Approvals.in_reviewerVerdict := verdict;
     Approvals.in_reviewerNotes := None |}.

Definition decision_input (by_whom : string) (d : DecisionType)
  : Approvals.CreateDecisionInput :=
  {| Approvals.cd_approvalRequestId := req_1;
     Approvals.cd_decidedBy := by_whom;
     Approvals.cd_decision := d;
     Approvals.cd_notes := None;
     Approvals.cd_metadata := None |}.

(** A store holding one request, created at time 1000. *)
Definition store_with (input : Approvals.CreateApprovalRequestInput)
  : Approvals.Store :=
  snd (Approvals.createRequest sample_is_uuid "invalid" Approvals.empty_store
         req_1 1000 1000 input).

(** An approved request of run [run_1] for the tool
    [asi.commit_post_alert], with reviewer verdict PASS, that expired at
    time 1000. *)
Definition expired_approved_request : Approvals.ApprovalRequest :=
  {| Approvals.req_id := req_1;
     Approvals.createdAt := 0;
     Approvals.domain := asi;
     Approvals.runId := run_1;
     Approvals.workflowName := "alert_triage";
     Approvals.requestedBy := "worker";
     Approvals.trustLevel := L3;
     Approvals.actionType := "asi.commit_post_alert";
     Approvals.actionPayload := [];
     Approvals.status := APPROVED;
     Approvals.expiresAt := 1000;
     Approvals.context := None;
     Approvals.reviewerVerdict := Some PASS;
     Approvals.reviewerNotes := None;
     Approvals.autoApproveEligible := true;
     Approvals.autoApproveReason := None |}.

Definition sample_gate : TrustGates.TrustGate :=
  {| TrustGates.config :=
       {| TrustGates.cfg_domain := asi;
          TrustGates.defaultTrustLevel := L1;
          TrustGates.requireApprovalAbove := L2;
          TrustGates.sandboxWriteOps := true;
          TrustGates.toolOverrides := None |};
     TrustGates.stagePolicies := TrustGates.DEFAULT_STAGE_POLICIES |}.

(** A gate built from [DEFAULT_TRUST_GATE_CONFIG], whose override table is
    the empty object. *)
Definition default_config_gate : TrustGates.TrustGate :=
  {| TrustGates.config :=
       {| TrustGates.cfg_domain := asi;
          TrustGates.defaultTrustLevel := L1;
          TrustGates.requireApprovalAbove := L2;
          TrustGates.sandboxWriteOps := true;
          TrustGates.toolOverrides := Some ∅ |};
     TrustGates.stagePolicies := TrustGates.DEFAULT_STAGE_POLICIES |}.

(** A tool of risk CRITICAL that only reads. *)
Definition critical_tool (toolName : string) : ToolDefinition :=
  {| name := toolName;
     description := "Transfer funds between accounts";
     capability := READ;
     risk := CRITICAL;
     executionMode := DIRECT;
     verification := HUMAN_APPROVAL |}.

Definition post_alert_tool : ToolDefinition :=
  {| name := "asi.commit_post_alert";
     description := "Post an alert to notification channels";
     capability := SIDE_EFFECTS;
     risk := HIGH;
     executionMode := SANDBOX_ONLY;
     verification := HUMAN_APPROVAL |}.

Definition sample_context
    (store : string -> outcome (list Approvals.ApprovalRequest))
  : TrustGates.TrustGateContext :=
  {| TrustGates.agentName := "worker";
     TrustGates.runId := run_1;
     TrustGates.approvalStore := Some store;
     TrustGates.workflowName := Some "alert_triage"%string;
     TrustGates.reviewerVerdict := Some PASS |}.

Definition sample_date_to_string (t : Z) : string := "<date>".

(** An approved, unexpired request for [COMMIT_APPLY_CHANGES] as the
    orchestrator files it: its context names no sandbox. *)
Definition apply_changes_request : Approvals.ApprovalRequest :=
  {| Approvals.req_id := req_1;
     Approvals.createdAt := 0;
     Approvals.domain := asi;
     Approvals.runId := run_1;
     Approvals.workflowName := "daily_ops_brief";
     Approvals.requestedBy := "worker";
     Approvals.trustLevel := L3;
     Approvals.actionType := "COMMIT_APPLY_CHANGES";
     Approvals.actionPayload := [];
     Approvals.status := APPROVED;
     Approvals.expiresAt := 3600000;
     Approvals.context :=
       Some {| Approvals.ctx_sandboxId := None;
               Approvals.ctx_other :=
                 [("toolName", JString "asi.commit_apply_changes")] |};
     Approvals.reviewerVerdict := Some PASS;
     Approvals.reviewerNotes := None;
     Approvals.autoApproveEligible := true;
     Approvals.autoApproveReason := None |}.

(** A boundary whose store holds that request and whose sandbox has no
    staged change at all. *)
Definition apply_changes_boundary : CommitTools.Boundary :=
  {| CommitTools.store_getRequestsByRunId := fun _ => Ok [apply_changes_request];
     CommitTools.sandbox_getStagedChanges := fun _ => Ok [] |}.






Definition agent (n : string) (r : AgentRole) : AgentDefinition :=
  {| agent_name := n; role := r; systemPrompt := "You are an agent.";
     allowedTools := []; maxTurns := 5 |}.

Definition workflow (stage_list : list WorkflowStage) : WorkflowDefinition :=
  {| wf_name := "daily_ops_brief"; wf_domain := asi;
     agents := [agent "brief_planner" planner; agent "brief_worker" worker;
                agent "brief_reviewer" reviewer];
     stages := stage_list |}.

Definition run_options : Orchestrator.WorkflowRunOptions :=
  {| Orchestrator.opt_input := "Generate the daily operations brief";
     Orchestrator.opt_runId := Some run_1;
     Orchestrator.opt_context := None;
     Orchestrator.opt_reviewerVerdict := None;
     Orchestrator.opt_reviewerNotes := None |}.

Definition agent_answer (text : string) (verdict : option ReviewerVerdict)
  : outcome Orchestrator.AgentRunResult :=
  Ok {| Orchestrator.output := Some text;
        Orchestrator.toolCalls := [];
        Orchestrator.run_status := Orchestrator.completed;
        Orchestrator.run_error := None;
        Orchestrator.run_approvalRequestId := None;
        Orchestrator.run_reviewerVerdict := verdict |}.

(** Agents whose reviewer answers FAIL. *)
Definition reviewer_fails (n : nat) (a : AgentDefinition) (stage : WorkflowStage)
    (input : string) (v : option ReviewerVerdict)
  : outcome Orchestrator.AgentRunResult :=
  match stage with
  | review => agent_answer "Figures do not add up. VERDICT: FAIL" (Some FAIL)
  | _ => agent_answer "done" None
  end.

(** Agents whose reviewer answers PASS on the first agent run of the
    workflow and FAIL afterwards. *)
Definition reviewer_passes_then_fails (n : nat) (a : AgentDefinition)
    (stage : WorkflowStage) (input : string) (v : option ReviewerVerdict)
  : outcome Orchestrator.AgentRunResult :=
  match stage, n with
  | review, O => agent_answer "Looks right. VERDICT: PASS" (Some PASS)
  | review, _ => agent_answer "Second look: VERDICT: FAIL" (Some FAIL)
  | _, _ => agent_answer "done" None
  end.

(** An orchestrator built without an approval store. *)
Definition run_without_store
    (runAgent : nat -> AgentDefinition -> WorkflowStage -> string ->
                option ReviewerVerdict -> outcome Orchestrator.AgentRunResult)
    (w : WorkflowDefinition) : Orchestrator.WorkflowResult :=
  fst (Orchestrator.runWorkflow unit
         (fun s _ => (Throw "no approval store", s))
         (fun s _ _ => (Ok None, s))
         runAgent false tt run_1 w run_options).

End Samples.

(** ** The chains as the specification words them *)

Module Spec.
Import Schemas.

(** Auto-approve eligibility as the specification states it: L4 gives
    false; else a verdict other than PASS gives false; else an action type
    or workflow name in the deny set gives false; else one in the allow set
    gives true; else false. *)
Definition spec_eligibility (input : Approvals.CreateApprovalRequestInput) : bool :=
  if decide (Approvals.in_trustLevel input = L4) then false
  else if decide (Approvals.in_reviewerVerdict input <> Some PASS) then false
  else if bool_decide (Approvals.in_actionType input ∈ Approvals.AUTO_APPROVE_DENY_LIST
                       \/ Approvals.in_workflowName input ∈ Approvals.AUTO_APPROVE_DENY_LIST)
  then false
  else if bool_decide (Approvals.in_actionType input ∈ Approvals.AUTO_APPROVE_ALLOW_LIST
                       \/ Approvals.in_workflowName input ∈ Approvals.AUTO_APPROVE_ALLOW_LIST)
  then true
  else false.

(** The trust level of a tool as the specification states it, given the
    override the domain configuration holds for the tool, if any. *)
Definition spec_trust_level (override : option TrustLevel) (r : RiskLevel)
    (c : ToolCapability) : TrustLevel :=
  match override with
  | Some l => l
  | None =>
      match r, c with
      | CRITICAL, _ => L4
      | HIGH, SIDE_EFFECTS => L3
      | HIGH, _ => L2
      | _, WRITE => L2
      | _, PROPOSE => L1
      | _, _ => L0
      end
  end.

(** The eight gates of the commit boundary, as the specification numbers
    them, and the opening words of the reasons each gate gives. *)
Inductive Gate :=
| Gate1 | Gate2 | Gate3 | Gate4 | Gate5 | Gate6 | Gate7 | Gate8.

Definition gate_markers (g : Gate) : list string :=
  match g with
  | Gate1 => [ "FAIL CLOSED: Invalid or missing runId";
               "FAIL CLOSED: Invalid or missing toolName" ]
  | Gate2 => [ "FAIL CLOSED: '" ]
  | Gate3 => [ "FAIL CLOSED: Failed to query approval store - ";
               "FAIL CLOSED: No approval request found for " ]
  | Gate4 => [ "FAIL CLOSED: Trust level " ]
  | Gate5 => [ "FAIL CLOSED: Approval status is '" ]
  | Gate6 => [ "FAIL CLOSED: Reviewer verdict is '" ]
  | Gate7 => [ "FAIL CLOSED: Approval request has expired at " ]
  | Gate8 => [ "FAIL CLOSED: Failed to get staged changes - ";
               "FAIL CLOSED: No staged changes found to commit. " ]
  end%string.

(** Gate 8 as the specification states it: for [apply_changes] the request
    names a sandbox and that sandbox has staged changes. *)
Definition gate_8_stated (b : CommitTools.Boundary) (toolName : string)
    (r : Approvals.ApprovalRequest) : Prop :=
  toolName = "asi.commit_apply_changes"%string ->
  exists sandboxId changes,
    CommitTools.context_sandboxId r = Some sandboxId
    /\ CommitTools.sandbox_getStagedChanges b sandboxId = Ok changes
    /\ changes <> [].

(** The first of the eight gates that fails, in the order of the
    specification; the registry of gate 2 is the set of entries of
    [COMMIT_TOOLS]; gate 8 is tested only when the request names a sandbox,
    as the code does. *)
Definition first_failed_gate (b : CommitTools.Boundary) (now : Z)
    (runId toolName : string) : option Gate :=
  if bool_decide (runId = ""%string \/ toolName = ""%string) then Some Gate1
  else
    match CommitTools.COMMIT_TOOLS !! toolName with
    | None => Some Gate2
    | Some toolDef =>
        match CommitTools.store_getRequestsByRunId b runId with
        | Throw _ => Some Gate3
        | Ok requests =>
            match List.find (CommitTools.matches_tool (Own toolDef) toolName)
                    requests with
            | None => Some Gate3
            | Some r =>
                if bool_decide (trust_index (Approvals.trustLevel r)
                                < trust_index (CommitTools.minTrustLevel toolDef))
                then Some Gate4
                else if bool_decide (Approvals.status r <> APPROVED) then Some Gate5
                else if bool_decide (Approvals.reviewerVerdict r <> Some PASS)
                then Some Gate6
                else if bool_decide (Approvals.expiresAt r < now) then Some Gate7
                else if bool_decide (toolName = "asi.commit_apply_changes"%string)
                then
                  match CommitTools.context_sandboxId r with
                  | Some sandboxId =>
                      if bool_decide (sandboxId = ""%string) then None
                      else
                        match CommitTools.sandbox_getStagedChanges b sandboxId with
                        | Ok (_ :: _) => None
                        | _ => Some Gate8
                        end
                  | None => None
                  end
                else None
            end
        end
    end.

End Spec.

(* ===================================================================== *)
(** * Predicates of the statements                                        *)
(* ===================================================================== *)

Import Schemas.

(** An L4 request is not auto-approve-eligible. *)
Definition l4_not_eligible (r : Approvals.ApprovalRequest) : Prop :=
  Approvals.trustLevel r = L4 -> Approvals.autoApproveEligible r = false.

(** Every stored request obeys it. *)
Definition l4_safe (s : Approvals.Store) : Prop :=
  Forall l4_not_eligible (Approvals.map_values (Approvals.requests s)).

(** What holds of every store reached through the interface: the keys of
    the request table are well-formed identifiers, and a recorded decision
    belongs to a stored request whose status it fixed. *)
Definition consistent (is_uuid : string -> bool) (s : Approvals.Store) : Prop :=
  (forall id r, Approvals.getRequest s id = Some r -> is_uuid id = true)
  /\ (forall id d,
        Approvals.getDecision s id = Some d ->
        exists r, Approvals.getRequest s id = Some r
                  /\ Approvals.status r
                     = Approvals.decided_status (Approvals.decision d)).

(** The gates [autoApprove] tests on a stored request, in its order; [now]
    is the clock its expiry gate reads. *)
Definition auto_gates (now : Z) (r : Approvals.ApprovalRequest) : Prop :=
  Approvals.trustLevel r <> L4
  /\ Approvals.status r = PENDING
  /\ Approvals.autoApproveEligible r = true
  /\ Approvals.reviewerVerdict r = Some PASS
  /\ ~ Approvals.expiresAt r < now.

(** The eight gates pass up to gate 6 for a request [r]. *)
Definition boundary_gates_1_to_6 (b : CommitTools.Boundary)
    (runId toolName : string) (toolDef : CommitTools.CommitToolDefinition)
    (r : Approvals.ApprovalRequest) : Prop :=
  runId <> ""%string /\ toolName <> ""%string
  /\ CommitTools.getCommitTool toolName = Own toolDef
  /\ (exists requests,
        CommitTools.store_getRequestsByRunId b runId = Ok requests
        /\ List.find (CommitTools.matches_tool (Own toolDef) toolName) requests
           = Some r)
  /\ trust_index (CommitTools.minTrustLevel toolDef)
     <= trust_index (Approvals.trustLevel r)
  /\ Approvals.status r = APPROVED
  /\ Approvals.reviewerVerdict r = Some PASS.

(** What a denial at gate [g] looks like: not eligible, with a reason that
    opens with the fail-closed marker and with words of gate [g] and of no
    other gate. *)
Definition denied_at (g : Spec.Gate) (res : CommitTools.CommitEligibilityResult)
  : Prop :=
  CommitTools.eligible res = false
  /\ exists reason,
       CommitTools.reason res = Some reason
       /\ String.prefix "FAIL CLOSED: " reason = true
       /\ (exists m, m ∈ Spec.gate_markers g /\ String.prefix m reason = true)
       /\ (forall g' m', m' ∈ Spec.gate_markers g' ->
                         String.prefix m' reason = true -> g' = g).

(** Gate 8 as the code tests it: only for [apply_changes], and only when
    the context of the request names a sandbox. *)
Definition gate_8_tested (b : CommitTools.Boundary) (toolName : string)
    (r : Approvals.ApprovalRequest) : Prop :=
  toolName = "asi.commit_apply_changes"%string ->
  forall sandboxId,
    CommitTools.context_sandboxId r = Some sandboxId ->
    sandboxId <> ""%string ->
    exists changes,
      CommitTools.sandbox_getStagedChanges b sandboxId = Ok changes
      /\ changes <> [].

(** The override lookup of the gate finds a member of [Object.prototype]:
    the configuration has an override table, the table has no entry of the
    tool's name, and the name is one every object inherits. *)
Definition finds_member (g : TrustGates.TrustGate) (tool : ToolDefinition) : Prop :=
  exists table,
    TrustGates.toolOverrides (TrustGates.config g) = Some table
    /\ table !! name tool = None
    /\ inherited (name tool) = true.




(* ===================================================================== *)
(** * Part II: properties                                                 *)
(* ===================================================================== *)

(** ** Strings *)

Lemma truthy_true (s : string) : truthy s = true <-> s <> ""%string.
Proof.
  unfold truthy. rewrite negb_true_iff. apply String.eqb_neq.
Qed.

Lemma truthy_false (s : string) : truthy s = false <-> s = ""%string.
Proof.
  unfold truthy. rewrite negb_false_iff. apply String.eqb_eq.
Qed.

(** ** The request table *)

Section MapFacts.
Context {V : Type}.
Implicit Types (m : list (string * V)) (k : string) (v : V).

Lemma map_get_set_eq m k v : Approvals.map_get (Approvals.map_set m k v) k = Some v.
Proof.
  induction m as [|[k' v'] m IH]; simpl.
  - by rewrite String.eqb_refl.
  - destruct (String.eqb k' k) eqn:E; simpl.
    + by rewrite String.eqb_refl.
    + by rewrite E.
Qed.

Lemma map_get_set_ne m k k' v :
  k <> k' -> Approvals.map_get (Approvals.map_set m k v) k' = Approvals.map_get m k'.
Proof.
  intros Hne. induction m as [|[k0 v0] m IH]; simpl.
  - apply String.eqb_neq in Hne. by rewrite Hne.
  - destruct (String.eqb k0 k) eqn:E; simpl.
    + apply String.eqb_eq in E. subst k0.
      apply String.eqb_neq in Hne. by rewrite Hne.
    + destruct (String.eqb k0 k'); [done | apply IH].
Qed.

Lemma map_get_update_eq m k (f : V -> V) :
  Approvals.map_get (Approvals.map_update m k f) k = f <$> Approvals.map_get m k.
Proof.
  induction m as [|[k0 v0] m IH]; simpl; [done |].
  destruct (String.eqb k0 k) eqn:E; simpl; rewrite E; [done | apply IH].
Qed.

Lemma map_get_update_ne m k k' (f : V -> V) :
  k <> k' ->
  Approvals.map_get (Approvals.map_update m k f) k' = Approvals.map_get m k'.
Proof.
  intros Hne. induction m as [|[k0 v0] m IH]; simpl; [done |].
  destruct (String.eqb k0 k) eqn:E; simpl.
  - apply String.eqb_eq in E. subst k0.
    apply String.eqb_neq in Hne. by rewrite Hne.
  - destruct (String.eqb k0 k'); [done | apply IH].
Qed.

Lemma map_get_map_values m k (g : V -> V) :
  Approvals.map_get (map (fun kv => (fst kv, g (snd kv))) m) k
  = g <$> Approvals.map_get m k.
Proof.
  induction m as [|[k0 v0] m IH]; simpl; [done |].
  destruct (String.eqb k0 k); [done | apply IH].
Qed.

Lemma map_values_set (P : V -> Prop) m k v :
  P v -> Forall P (Approvals.map_values m) ->
  Forall P (Approvals.map_values (Approvals.map_set m k v)).
Proof.
  intros Hv. unfold Approvals.map_values.
  induction m as [|[k0 v0] m IH]; simpl; intros Hm.
  - by constructor.
  - inversion Hm; subst.
    destruct (String.eqb k0 k); simpl; constructor; auto.
Qed.

Lemma map_values_update (P : V -> Prop) m k (f : V -> V) :
  (forall x, P x -> P (f x)) -> Forall P (Approvals.map_values m) ->
  Forall P (Approvals.map_values (Approvals.map_update m k f)).
Proof.
  intros Hf. unfold Approvals.map_values.
  induction m as [|[k0 v0] m IH]; simpl; intros Hm; [done |].
  inversion Hm; subst.
  destruct (String.eqb k0 k); simpl; constructor; auto.
Qed.

Lemma map_values_map (P : V -> Prop) m (g : V -> V) :
  (forall x, P x -> P (g x)) -> Forall P (Approvals.map_values m) ->
  Forall P (Approvals.map_values (map (fun kv => (fst kv, g (snd kv))) m)).
Proof.
  intros Hg. unfold Approvals.map_values.
  induction m as [|[k0 v0] m IH]; simpl; intros Hm; [done |].
  inversion Hm; subst. constructor; auto.
Qed.


End MapFacts.

(** ** Auto-approve eligibility *)

Lemma list_includes_true (l : list string) (x : string) :
  Approvals.list_includes l x = true <-> x ∈ l.
Proof.
  unfold Approvals.list_includes. rewrite existsb_exists. split.
  - intros (y & Hy & E). apply String.eqb_eq in E. subst y.
    by apply list_elem_of_In.
  - intros H. exists x. split; [by apply list_elem_of_In | apply String.eqb_refl].
Qed.

Lemma list_includes_false (l : list string) (x : string) :
  Approvals.list_includes l x = false <-> x ∉ l.
Proof.
  rewrite <- list_includes_true. destruct (Approvals.list_includes l x); naive_solver.
Qed.

Ltac includes_cases l x H :=
  destruct (Approvals.list_includes l x) eqn:H;
  [apply list_includes_true in H | apply list_includes_false in H].

Lemma isAutoApproveEligible_true level action workflow verdict :
  Approvals.isAutoApproveEligible level action workflow verdict = true <->
  level = L3 /\ verdict = Some PASS /\
  (action ∉ Approvals.AUTO_APPROVE_DENY_LIST) /\
  (workflow ∉ Approvals.AUTO_APPROVE_DENY_LIST) /\
  (action ∈ Approvals.AUTO_APPROVE_ALLOW_LIST \/
   workflow ∈ Approvals.AUTO_APPROVE_ALLOW_LIST).
Proof.
  unfold Approvals.isAutoApproveEligible.
  includes_cases Approvals.AUTO_APPROVE_DENY_LIST action Da;
  includes_cases Approvals.AUTO_APPROVE_DENY_LIST workflow Dw;
  includes_cases Approvals.AUTO_APPROVE_ALLOW_LIST action Aa;
  includes_cases Approvals.AUTO_APPROVE_ALLOW_LIST workflow Aw;
  destruct level; destruct verdict as [[]|];
  repeat case_decide; cbn [orb]; try congruence;
  (split; [try discriminate; intros _; auto 10
          | intros (? & ? & ? & ? & ?); try congruence; tauto]).
Qed.

Lemma createRequest_eligibility_true input :
  Approvals.createRequest_eligibility input = true <->
  Approvals.in_trustLevel input = L3 /\
  Approvals.in_reviewerVerdict input = Some PASS /\
  (Approvals.in_actionType input ∉ Approvals.AUTO_APPROVE_DENY_LIST) /\
  (Approvals.in_workflowName input ∉ Approvals.AUTO_APPROVE_DENY_LIST) /\
  (Approvals.in_actionType input ∈ Approvals.AUTO_APPROVE_ALLOW_LIST \/
   Approvals.in_workflowName input ∈ Approvals.AUTO_APPROVE_ALLOW_LIST).
Proof.
  unfold Approvals.createRequest_eligibility. case_decide as HL4.
  - split; [done |]. intros (H & _). congruence.
  - apply isAutoApproveEligible_true.
Qed.

Lemma createRequest_valid is_uuid msg s uuid now now' input :
  Approvals.valid_request_input is_uuid input = true ->
  exists r,
    Approvals.createRequest is_uuid msg s uuid now now' input
    = (Ok r, {| Approvals.requests := Approvals.map_set (Approvals.requests s) uuid r;
                Approvals.decisions := Approvals.decisions s |})
    /\ Approvals.req_id r = uuid
    /\ Approvals.status r = PENDING
    /\ Approvals.trustLevel r = Approvals.in_trustLevel input
    /\ Approvals.expiresAt r
       = now + Approvals.expirySeconds (Approvals.in_trustLevel input) * 1000
    /\ Approvals.autoApproveEligible r = Approvals.createRequest_eligibility input.
Proof.
  intros Hv. unfold Approvals.createRequest. rewrite Hv. simpl.
  eexists. split; [reflexivity |]. simpl. auto.
Qed.

Lemma createRequest_Ok is_uuid msg s uuid now now' input r s' :
  Approvals.createRequest is_uuid msg s uuid now now' input = (Ok r, s') ->
  Approvals.valid_request_input is_uuid input = true
  /\ s' = {| Approvals.requests := Approvals.map_set (Approvals.requests s) uuid r;
             Approvals.decisions := Approvals.decisions s |}
  /\ Approvals.req_id r = uuid
  /\ Approvals.status r = PENDING
  /\ Approvals.trustLevel r = Approvals.in_trustLevel input
  /\ Approvals.expiresAt r
     = now + Approvals.expirySeconds (Approvals.in_trustLevel input) * 1000
  /\ Approvals.autoApproveEligible r = Approvals.createRequest_eligibility input.
Proof.
  unfold Approvals.createRequest.
  destruct (Approvals.valid_request_input is_uuid input); simpl; [| done].
  intros [= <- <-]. simpl. auto 10.
Qed.

Lemma spec_eligibility_true input :
  Spec.spec_eligibility input = true <->
  Approvals.in_trustLevel input <> L4 /\
  Approvals.in_reviewerVerdict input = Some PASS /\
  (Approvals.in_actionType input ∉ Approvals.AUTO_APPROVE_DENY_LIST) /\
  (Approvals.in_workflowName input ∉ Approvals.AUTO_APPROVE_DENY_LIST) /\
  (Approvals.in_actionType input ∈ Approvals.AUTO_APPROVE_ALLOW_LIST \/
   Approvals.in_workflowName input ∈ Approvals.AUTO_APPROVE_ALLOW_LIST).
Proof.
  unfold Spec.spec_eligibility.
  destruct (Approvals.in_reviewerVerdict input) as [[]|];
  repeat case_decide; repeat case_bool_decide; try congruence;
  (split; [try discriminate; intros _; repeat split; tauto
          | intros (? & ? & ? & ? & ?); try congruence; tauto]).
Qed.

(** C5, as the code has it. For every valid input [createRequest] stores a
    request whose auto-approve eligibility is true exactly when the trust
    level is L3, the reviewer verdict is PASS, neither the action type nor
    the workflow name is in the deny list, and one of them is in the allow
    list; so L4, and every level other than L3, is never eligible, and an L3
    request with verdict PASS and an allow-list action type is eligible
    unless the deny list names its action type or workflow. *)
Theorem createRequest_eligibility_chain
    (is_uuid : string -> bool) (msg : string) (s : Approvals.Store)
    (uuid : string) (now now' : Z) (input : Approvals.CreateApprovalRequestInput) :
  Approvals.valid_request_input is_uuid input = true ->
  exists r s',
    Approvals.createRequest is_uuid msg s uuid now now' input = (Ok r, s')
    /\ Approvals.getRequest s' uuid = Some r
    /\ (Approvals.autoApproveEligible r = true <->
        Approvals.in_trustLevel input = L3 /\
        Approvals.in_reviewerVerdict input = Some PASS /\
        (Approvals.in_actionType input ∉ Approvals.AUTO_APPROVE_DENY_LIST) /\
        (Approvals.in_workflowName input ∉ Approvals.AUTO_APPROVE_DENY_LIST) /\
        (Approvals.in_actionType input ∈ Approvals.AUTO_APPROVE_ALLOW_LIST \/
         Approvals.in_workflowName input ∈ Approvals.AUTO_APPROVE_ALLOW_LIST))
    /\ (Approvals.in_trustLevel input <> L3 ->
        Approvals.autoApproveEligible r = false)
    /\ (Approvals.in_trustLevel input = L3 ->
        Approvals.autoApproveEligible r = Spec.spec_eligibility input).
Proof.
  intros Hv.
  destruct (createRequest_valid is_uuid msg s uuid now now' input Hv)
    as (r & Hr & Hid & _ & _ & _ & Hel).
  eexists r, _. split; [exact Hr |].
  split; [unfold Approvals.getRequest; simpl; apply map_get_set_eq |].
  rewrite Hel. split; [apply createRequest_eligibility_true |]. split.
  - intros HL. destruct (Approvals.createRequest_eligibility input) eqn:E; [| done].
    apply createRequest_eligibility_true in E. naive_solver.
  - intros HL3. apply eq_true_iff_eq.
    rewrite createRequest_eligibility_true, spec_eligibility_true.
    split; [intros (? & ? & ? & ? & ?) | intros (? & ? & ? & ? & ?)];
      repeat split; auto; congruence.
Qed.

(** An L3 request with verdict PASS for [COMMIT_POST_ALERT] is stored as
    eligible. *)
Lemma createRequest_eligibility_chain_witness :
  exists r s',
    Approvals.createRequest Samples.sample_is_uuid "invalid" Approvals.empty_store
      Samples.req_1 1000 1000
      (Samples.request_input L3 "COMMIT_POST_ALERT" (Some PASS)) = (Ok r, s')
    /\ Approvals.autoApproveEligible r = true.
Proof.
  destruct (createRequest_eligibility_chain Samples.sample_is_uuid "invalid"
              Approvals.empty_store Samples.req_1 1000 1000
              (Samples.request_input L3 "COMMIT_POST_ALERT" (Some PASS))
              eq_refl)
    as (r & s' & Hr & _ & _ & _ & Hspec).
  exists r, s'. split; [exact Hr |].
  rewrite (Hspec eq_refl). reflexivity.
Defined.

(** C5, the claim as stated fails: an L2 request with verdict PASS for the
    allow-list action [COMMIT_POST_ALERT] is a valid input, the chain of the
    claim makes it eligible, and [createRequest] stores it as not eligible. *)
Lemma eligibility_chain_counterexample :
  let input := Samples.request_input L2 "COMMIT_POST_ALERT" (Some PASS) in
  Approvals.valid_request_input Samples.sample_is_uuid input = true
  /\ Spec.spec_eligibility input = true
  /\ Approvals.autoApproveEligible
       <$> Approvals.getRequest (Samples.store_with input) Samples.req_1
     = Some false.
Proof. vm_compute. auto. Qed.

(** ** The L4 invariant *)

Lemma createRequest_eligibility_L4 input :
  Approvals.in_trustLevel input = L4 ->
  Approvals.createRequest_eligibility input = false.
Proof.
  intros H. unfold Approvals.createRequest_eligibility. by rewrite decide_True.
Qed.

Lemma createRequest_l4_safe is_uuid msg s uuid now now' input :
  l4_safe s -> l4_safe (snd (Approvals.createRequest is_uuid msg s uuid now now' input)).
Proof.
  intros Hs. unfold Approvals.createRequest.
  destruct (Approvals.valid_request_input is_uuid input); simpl; [| exact Hs].
  apply map_values_set; [| exact Hs].
  unfold l4_not_eligible. simpl. apply createRequest_eligibility_L4.
Qed.

Lemma createDecision_l4_safe is_uuid msg s uuid now now' input :
  l4_safe s -> l4_safe (snd (Approvals.createDecision is_uuid msg s uuid now now' input)).
Proof.
  intros Hs. unfold Approvals.createDecision.
  destruct (Approvals.valid_decision_input is_uuid input); simpl; [| exact Hs].
  destruct (Approvals.getRequest s _) as [r|]; [| exact Hs].
  case_decide; [exact Hs |].
  destruct (_ <? _); [exact Hs |].
  case_bool_decide; [exact Hs |]. simpl.
  apply map_values_update; [| exact Hs]. intros x Hx. exact Hx.
Qed.

Lemma autoApprove_l4_safe is_uuid msg s id reason now uuid now1 now2 :
  l4_safe s ->
  l4_safe (snd (Approvals.autoApprove is_uuid msg s id reason now uuid now1 now2)).
Proof.
  intros Hs. unfold Approvals.autoApprove.
  destruct (Approvals.getRequest s id) as [r|]; [| exact Hs].
  repeat (case_decide; [exact Hs |]).
  destruct (negb _); [exact Hs |].
  repeat (case_decide; [exact Hs |]).
  destruct (_ <? _); [exact Hs |].
  match goal with
  | |- context [Approvals.createDecision ?u ?m ?s1 ?a ?b ?c ?d] =>
      pose proof (createDecision_l4_safe u m s1 a b c d) as Hd;
      destruct (Approvals.createDecision u m s1 a b c d) as [[d'|e] s2]
  end; simpl in *; apply Hd;
  (apply map_values_update; [| exact Hs]; intros x Hx; exact Hx).
Qed.

Lemma expireStaleRequests_l4_safe s now :
  l4_safe s -> l4_safe (snd (Approvals.expireStaleRequests s now)).
Proof.
  intros Hs. unfold Approvals.expireStaleRequests, l4_safe. simpl.
  apply (map_values_map l4_not_eligible (Approvals.requests s)
           (fun r => if Approvals.is_stale_at now r
                     then Approvals.set_status EXPIRED r else r)); [| exact Hs].
  intros x Hx. destruct (Approvals.is_stale_at now x); exact Hx.
Qed.

Lemma exec_l4_safe is_uuid msg s c :
  l4_safe s -> l4_safe (Approvals.exec is_uuid msg s c).
Proof.
  destruct c; simpl.
  - apply createRequest_l4_safe.
  - apply createDecision_l4_safe.
  - apply autoApprove_l4_safe.
  - apply expireStaleRequests_l4_safe.
Qed.

Lemma fold_exec_l4_safe is_uuid msg calls s :
  l4_safe s -> l4_safe (fold_left (Approvals.exec is_uuid msg) calls s).
Proof.
  revert s. induction calls as [|c calls IH]; simpl; intros s Hs; [exact Hs |].
  apply IH, exec_l4_safe, Hs.
Qed.

Lemma autoApprove_L4 is_uuid msg s id reason now uuid now1 now2 r :
  Approvals.getRequest s id = Some r ->
  Approvals.trustLevel r = L4 ->
  Approvals.autoApprove is_uuid msg s id reason now uuid now1 now2 = (Ok None, s).
Proof.
  intros Hr HL. unfold Approvals.autoApprove. rewrite Hr. by rewrite decide_True.
Qed.

(** C1. Whatever calls have been made on the store, every stored request
    with trust level L4 has [autoApproveEligible = false]; [createRequest]
    on an L4 input stores the request with the flag false; and
    [autoApprove] on a stored L4 request returns no decision and leaves the
    store, hence the request and the decisions, as they were. *)
Theorem l4_never_auto_approve_eligible
    (is_uuid : string -> bool) (msg : string) :
  (forall calls r,
     r ∈ Approvals.map_values (Approvals.requests (Approvals.run is_uuid msg calls)) ->
     Approvals.trustLevel r = L4 ->
     Approvals.autoApproveEligible r = false)
  /\ (forall s uuid now now' input r s',
        Approvals.createRequest is_uuid msg s uuid now now' input = (Ok r, s') ->
        Approvals.in_trustLevel input = L4 ->
        Approvals.getRequest s' uuid = Some r
        /\ Approvals.trustLevel r = L4
        /\ Approvals.autoApproveEligible r = false)
  /\ (forall s id reason now uuid now1 now2 r,
        Approvals.getRequest s id = Some r ->
        Approvals.trustLevel r = L4 ->
        Approvals.autoApprove is_uuid msg s id reason now uuid now1 now2
        = (Ok None, s)).
Proof.
  split; [| split].
  - intros calls r Hin.
    assert (l4_safe (Approvals.run is_uuid msg calls)) as Hsafe.
    { apply fold_exec_l4_safe. constructor. }
    unfold l4_safe in Hsafe. rewrite Forall_forall in Hsafe.
    apply Hsafe, Hin.
  - intros s uuid now now' input r s' Hc HL.
    apply createRequest_Ok in Hc as (_ & -> & _ & _ & Hl & _ & He).
    split; [unfold Approvals.getRequest; simpl; apply map_get_set_eq |].
    split; [congruence |].
    rewrite He. by apply createRequest_eligibility_L4.
  - intros. eapply autoApprove_L4; eauto.
Qed.

(** An L4 request created with verdict PASS for an allow-list action, then
    offered to [autoApprove]: the flag is false and no decision is made. *)
Lemma l4_never_auto_approve_eligible_witness :
  let input := Samples.request_input L4 "COMMIT_POST_ALERT" (Some PASS) in
  let s := Samples.store_with input in
  (forall r, r ∈ Approvals.map_values (Approvals.requests s) ->
             Approvals.trustLevel r = L4 -> Approvals.autoApproveEligible r = false)
  /\ Approvals.autoApprove Samples.sample_is_uuid "invalid" s Samples.req_1
       "Should fail" 2000 Samples.dec_1 2000 2000 = (Ok None, s).
Proof.
  pose proof (l4_never_auto_approve_eligible Samples.sample_is_uuid "invalid")
    as (Hinv & _ & Hauto).
  split.
  - apply (Hinv [Approvals.CallCreateRequest Samples.req_1 1000 1000
                   (Samples.request_input L4 "COMMIT_POST_ALERT" (Some PASS))]).
  - eapply Hauto; reflexivity.
Defined.

(** ** Decisions *)

Lemma decided_status_not_pending d : Approvals.decided_status d <> PENDING.
Proof. by destruct d. Qed.

Lemma consistent_pending_undecided is_uuid s id r :
  consistent is_uuid s ->
  Approvals.getRequest s id = Some r ->
  Approvals.status r = PENDING ->
  Approvals.getDecision s id = None.
Proof.
  intros [_ HD] Hr Hp.
  destruct (Approvals.getDecision s id) as [d|] eqn:E; [| done].
  destruct (HD id d E) as (r' & Hr' & Hs). rewrite Hr in Hr'. injection Hr' as <-.
  rewrite Hp in Hs. symmetry in Hs. by apply decided_status_not_pending in Hs.
Qed.

(** The one successful path of [createDecision]. *)
Lemma createDecision_Ok is_uuid msg s uuid now now' input d s' :
  Approvals.createDecision is_uuid msg s uuid now now' input = (Ok d, s') <->
  Approvals.valid_decision_input is_uuid input = true
  /\ exists r,
       Approvals.getRequest s (Approvals.cd_approvalRequestId input) = Some r
       /\ Approvals.status r = PENDING
       /\ ~ Approvals.expiresAt r < now
       /\ Approvals.getDecision s (Approvals.cd_approvalRequestId input) = None
       /\ d = {| Approvals.dec_id := uuid;
                 Approvals.dec_createdAt := now';
                 Approvals.approvalRequestId := Approvals.cd_approvalRequestId input;
                 Approvals.decidedBy := Approvals.cd_decidedBy input;
                 Approvals.decision := Approvals.cd_decision input;
                 Approvals.notes := Approvals.cd_notes input;
                 Approvals.metadata := Approvals.cd_metadata input |}
       /\ s' = {| Approvals.requests :=
                    Approvals.map_update (Approvals.requests s)
                      (Approvals.cd_approvalRequestId input)
                      (Approvals.set_status
                         (Approvals.decided_status (Approvals.cd_decision input)));
                  Approvals.decisions :=
                    <[Approvals.cd_approvalRequestId input := d]>
                      (Approvals.decisions s) |}.
Proof.
  unfold Approvals.createDecision, Approvals.getDecision.
  destruct (Approvals.valid_decision_input is_uuid input); simpl;
    [| split; [done | intros [? _]; done]].
  destruct (Approvals.getRequest s _) as [r|];
    [| split; [done | intros (_ & ? & ? & _); done]].
  case_decide as Hst.
  { split; [done | intros (_ & ? & [= <-] & ? & _); done]. }
  destruct (Approvals.expiresAt r <? now) eqn:Hex.
  { apply Z.ltb_lt in Hex. split; [done | intros (_ & ? & [= <-] & _ & ? & _); done]. }
  apply Z.ltb_ge in Hex.
  case_bool_decide as Hdec.
  { split; [done |]. intros (_ & ? & _ & _ & _ & Hn & _).
    rewrite Hn in Hdec. by destruct Hdec. }
  split.
  - intros [= <- <-]. split; [done |]. exists r.
    repeat split; try done.
    + lia.
    + destruct (Approvals.decisions s !! _) eqn:E; [| done].
      exfalso. apply Hdec. eauto.
  - intros (_ & r' & [= <-] & _ & _ & _ & -> & ->). reflexivity.
Qed.

(** A call of [createDecision] that throws leaves the store as it was. *)
Lemma createDecision_Throw is_uuid msg s uuid now now' input e s' :
  Approvals.createDecision is_uuid msg s uuid now now' input = (Throw e, s') ->
  s' = s.
Proof.
  unfold Approvals.createDecision.
  destruct (Approvals.valid_decision_input is_uuid input); simpl; [| congruence].
  destruct (Approvals.getRequest s _) as [r|]; [| congruence].
  case_decide; [congruence |].
  destruct (_ <? _); [congruence |].
  case_bool_decide; congruence.
Qed.

Lemma getRequest_update s id id' f dec :
  Approvals.getRequest
    {| Approvals.requests := Approvals.map_update (Approvals.requests s) id f;
       Approvals.decisions := dec |} id'
  = if decide (id = id') then f <$> Approvals.getRequest s id'
    else Approvals.getRequest s id'.
Proof.
  unfold Approvals.getRequest. simpl. case_decide as E.
  - subst. apply map_get_update_eq.
  - by apply map_get_update_ne.
Qed.

Lemma createDecision_consistent is_uuid msg s uuid now now' input :
  consistent is_uuid s ->
  consistent is_uuid
    (snd (Approvals.createDecision is_uuid msg s uuid now now' input)).
Proof.
  intros Hs.
  destruct (Approvals.createDecision is_uuid msg s uuid now now' input)
    as [[d|e] s'] eqn:E; simpl.
  2: { apply createDecision_Throw in E. by subst. }
  apply createDecision_Ok in E as (_ & r & Hr & _ & _ & _ & Hd & ->).
  destruct Hs as [HK HD]. split.
  - intros id r'. rewrite getRequest_update. case_decide as Hid.
    + subst id. intros _. eapply HK, Hr.
    + apply HK.
  - intros id d'. unfold Approvals.getDecision. simpl.
    rewrite getRequest_update.
    destruct (decide (Approvals.cd_approvalRequestId input = id)) as [<-|Hne].
    + rewrite lookup_insert_eq. intros [= <-]. rewrite Hr. simpl.
      eexists. split; [reflexivity |]. rewrite Hd. reflexivity.
    + rewrite lookup_insert_ne by done. apply HD.
Qed.

Lemma set_reason_consistent is_uuid s id reason :
  consistent is_uuid s ->
  consistent is_uuid
    {| Approvals.requests :=
         Approvals.map_update (Approvals.requests s) id
           (Approvals.set_autoApproveReason reason);
       Approvals.decisions := Approvals.decisions s |}.
Proof.
  intros [HK HD]. split.
  - intros id' r. rewrite getRequest_update. case_decide; [| apply HK].
    destruct (Approvals.getRequest s id') eqn:E; [| done].
    intros _. eapply HK, E.
  - intros id' d Hd. unfold Approvals.getDecision in Hd. simpl in Hd.
    destruct (HD id' d Hd) as (r & Hr & Hst).
    rewrite getRequest_update. case_decide.
    + rewrite Hr. simpl. eexists. split; [reflexivity | exact Hst].
    + eauto.
Qed.

Lemma autoApprove_consistent is_uuid msg s id reason now uuid now1 now2 :
  consistent is_uuid s ->
  consistent is_uuid
    (snd (Approvals.autoApprove is_uuid msg s id reason now uuid now1 now2)).
Proof.
  intros Hs. unfold Approvals.autoApprove.
  destruct (Approvals.getRequest s id) as [r|]; [| exact Hs].
  repeat (case_decide; [exact Hs |]).
  destruct (negb _); [exact Hs |].
  repeat (case_decide; [exact Hs |]).
  destruct (_ <? _); [exact Hs |].
  match goal with
  | |- context [Approvals.createDecision ?u ?m ?s1 ?a ?b ?c ?d] =>
      pose proof (createDecision_consistent u m s1 a b c d
                    (set_reason_consistent is_uuid s id reason Hs)) as Hd;
      destruct (Approvals.createDecision u m s1 a b c d) as [[d'|e] s2]
  end; exact Hd.
Qed.

Lemma createRequest_consistent is_uuid msg s uuid now now' input :
  consistent is_uuid s ->
  is_uuid uuid = true ->
  Approvals.getRequest s uuid = None ->
  consistent is_uuid
    (snd (Approvals.createRequest is_uuid msg s uuid now now' input)).
Proof.
  intros [HK HD] Hu Hfresh. unfold Approvals.createRequest.
  destruct (Approvals.valid_request_input is_uuid input); simpl; [| by split].
  split.
  - intros id r. unfold Approvals.getRequest. simpl.
    destruct (decide (uuid = id)) as [<-|Hne]; [done |].
    rewrite map_get_set_ne by done. apply HK.
  - intros id d Hd. unfold Approvals.getDecision in Hd. simpl in Hd.
    destruct (HD id d Hd) as (r & Hr & Hst).
    exists r. split; [| exact Hst].
    unfold Approvals.getRequest. simpl.
    rewrite map_get_set_ne; [exact Hr |]. intros ->. congruence.
Qed.

Lemma getRequest_expire s now id :
  Approvals.getRequest (snd (Approvals.expireStaleRequests s now)) id
  = (fun r => if Approvals.is_stale_at now r
              then Approvals.set_status EXPIRED r else r)
    <$> Approvals.getRequest s id.
Proof.
  unfold Approvals.getRequest, Approvals.expireStaleRequests. simpl.
  apply (map_get_map_values (Approvals.requests s) id
           (fun r => if Approvals.is_stale_at now r
                     then Approvals.set_status EXPIRED r else r)).
Qed.

Lemma expireStaleRequests_consistent is_uuid s now :
  consistent is_uuid s ->
  consistent is_uuid (snd (Approvals.expireStaleRequests s now)).
Proof.
  intros [HK HD]. split.
  - intros id r. rewrite getRequest_expire.
    destruct (Approvals.getRequest s id) eqn:E; [| done]. intros _. eapply HK, E.
  - intros id d Hd. change (Approvals.getDecision s id = Some d) in Hd.
    destruct (HD id d Hd) as (r & Hr & Hst).
    rewrite getRequest_expire, Hr. simpl. eexists. split; [reflexivity |].
    unfold Approvals.is_stale_at. rewrite bool_decide_eq_false_2; [done |].
    rewrite Hst. apply decided_status_not_pending.
Qed.

Lemma reachable_consistent is_uuid msg s :
  Approvals.reachable is_uuid msg s -> consistent is_uuid s.
Proof.
  induction 1 as [|s c _ IH Hfresh].
  - split; [done |]. intros id d Hd. unfold Approvals.getDecision in Hd.
    simpl in Hd. by rewrite lookup_empty in Hd.
  - destruct c; simpl in *.
    + destruct Hfresh. by apply createRequest_consistent.
    + by apply createDecision_consistent.
    + by apply autoApprove_consistent.
    + by apply expireStaleRequests_consistent.
Qed.

(** ** Auto-approval *)

Lemma autoApprove_gates_fail is_uuid msg s id reason now uuid now1 now2 r :
  Approvals.getRequest s id = Some r ->
  ~ auto_gates now r ->
  Approvals.autoApprove is_uuid msg s id reason now uuid now1 now2 = (Ok None, s).
Proof.
  intros Hr Hg. unfold Approvals.autoApprove. rewrite Hr.
  case_decide as H1; [done |].
  case_decide as H2; [done |].
  destruct (Approvals.autoApproveEligible r) eqn:H3; simpl; [| done].
  case_decide as H4; [done |].
  destruct (Approvals.expiresAt r <? now) eqn:H5; [done |].
  exfalso. apply Hg. apply Z.ltb_ge in H5.
  repeat split; try done. lia.
Qed.

Lemma autoApprove_gates_pass is_uuid msg s id reason now uuid now1 now2 r :
  Approvals.getRequest s id = Some r ->
  auto_gates now r ->
  Approvals.autoApprove is_uuid msg s id reason now uuid now1 now2
  = match Approvals.createDecision is_uuid msg
            {| Approvals.requests :=
                 Approvals.map_update (Approvals.requests s) id
                   (Approvals.set_autoApproveReason reason);
               Approvals.decisions := Approvals.decisions s |}
            uuid now1 now2 (Approvals.auto_decision_input id reason) with
    | (Ok d, s2) => (Ok (Some d), s2)
    | (Throw e, s2) => (Throw e, s2)
    end.
Proof.
  intros Hr (H1 & H2 & H3 & H4 & H5). unfold Approvals.autoApprove. rewrite Hr.
  rewrite decide_False by done.
  rewrite decide_False by (intros ?; congruence).
  rewrite H3. simpl.
  rewrite decide_False by (intros ?; congruence).
  destruct (Approvals.expiresAt r <? now) eqn:E; [| done].
  apply Z.ltb_lt in E. lia.
Qed.

(** The nested [createDecision] of a request that passed the gates, in a
    consistent store: it succeeds unless the request expired meanwhile. *)
Lemma auto_createDecision is_uuid msg s id reason now uuid now1 now2 r :
  consistent is_uuid s ->
  Approvals.getRequest s id = Some r ->
  auto_gates now r ->
  let s1 := {| Approvals.requests :=
                 Approvals.map_update (Approvals.requests s) id
                   (Approvals.set_autoApproveReason reason);
               Approvals.decisions := Approvals.decisions s |} in
  if Approvals.expiresAt r <? now1 then
    Approvals.createDecision is_uuid msg s1 uuid now1 now2
      (Approvals.auto_decision_input id reason)
    = (Throw "Approval request has expired", s1)
  else
    exists d s2,
      Approvals.createDecision is_uuid msg s1 uuid now1 now2
        (Approvals.auto_decision_input id reason) = (Ok d, s2)
      /\ Approvals.decision d = APPROVE
      /\ Approvals.decidedBy d = "system:auto-approve"%string
      /\ Approvals.approvalRequestId d = id
      /\ Approvals.getDecision s2 id = Some d
      /\ Approvals.status <$> Approvals.getRequest s2 id = Some APPROVED.
Proof.
  intros Hs Hr (H1 & H2 & H3 & H4 & H5) s1.
  assert (Approvals.getRequest s1 id
          = Some (Approvals.set_autoApproveReason reason r)) as Hr1.
  { unfold s1. rewrite getRequest_update, decide_True by done. by rewrite Hr. }
  assert (Approvals.valid_decision_input is_uuid
            (Approvals.auto_decision_input id reason) = true) as Hv.
  { unfold Approvals.valid_decision_input. simpl.
    destruct Hs as [HK _]. rewrite (HK id r Hr). reflexivity. }
  assert (Approvals.getDecision s1 id = None) as Hnone.
  { change (Approvals.getDecision s id = None).
    eapply consistent_pending_undecided; eauto. }
  destruct (Approvals.expiresAt r <? now1) eqn:E.
  - unfold Approvals.createDecision. rewrite Hv. simpl. rewrite Hr1. simpl.
    rewrite decide_False by (intros ?; congruence). by rewrite E.
  - apply Z.ltb_ge in E. eexists _, _. split.
    + apply createDecision_Ok. split; [exact Hv |]. simpl.
      eexists. split; [exact Hr1 |]. simpl.
      repeat split; try done. lia.
    + simpl. repeat split.
      * unfold Approvals.getDecision. simpl. apply lookup_insert_eq.
      * subst s1. unfold Approvals.getRequest in *. simpl in *.
        by rewrite map_get_update_eq, Hr1.
Qed.

(** C4, as the code has it. In every store reached through the interface,
    [autoApprove] returns a decision exactly when the request exists and
    passes the gates (not L4, PENDING, eligible, verdict PASS, not expired)
    and has not expired when the decision is recorded; that decision is an
    APPROVE by [system:auto-approve] and the request becomes APPROVED; a
    stored request failing a gate gives no decision and no change; a
    missing request raises the [FAIL CLOSED] exception; and no other
    exception is raised, except for a request that expires between the
    gate and the recording of the decision. *)
Theorem autoApprove_decides
    (is_uuid : string -> bool) (msg : string) (s : Approvals.Store)
    (id reason : string) (now : Z) (uuid : string) (now1 now2 : Z) :
  Approvals.reachable is_uuid msg s ->
  let call := Approvals.autoApprove is_uuid msg s id reason now uuid now1 now2 in
  ((exists d s', call = (Ok (Some d), s')) <->
   (exists r, Approvals.getRequest s id = Some r /\ auto_gates now r
              /\ ~ Approvals.expiresAt r < now1))
  /\ (forall d s', call = (Ok (Some d), s') ->
        Approvals.decision d = APPROVE
        /\ Approvals.decidedBy d = "system:auto-approve"%string
        /\ Approvals.approvalRequestId d = id
        /\ Approvals.getDecision s' id = Some d
        /\ Approvals.status <$> Approvals.getRequest s' id = Some APPROVED)
  /\ (forall r, Approvals.getRequest s id = Some r -> ~ auto_gates now r ->
        call = (Ok None, s))
  /\ (Approvals.getRequest s id = None ->
        call = (Throw ("FAIL CLOSED: Approval request not found: " +:+ id), s))
  /\ (forall e s', call = (Throw e, s') ->
        Approvals.getRequest s id = None
        \/ exists r, Approvals.getRequest s id = Some r /\ auto_gates now r
                     /\ Approvals.expiresAt r < now1).
Proof.
  intros Hreach call. apply reachable_consistent in Hreach as Hs.
  assert (forall r, Approvals.getRequest s id = Some r -> auto_gates now r ->
          if Approvals.expiresAt r <? now1
          then exists s1, call = (Throw "Approval request has expired", s1)
          else exists d s2, call = (Ok (Some d), s2)
               /\ Approvals.decision d = APPROVE
               /\ Approvals.decidedBy d = "system:auto-approve"%string
               /\ Approvals.approvalRequestId d = id
               /\ Approvals.getDecision s2 id = Some d
               /\ Approvals.status <$> Approvals.getRequest s2 id = Some APPROVED)
    as Hpass.
  { intros r Hr Hg. unfold call.
    rewrite (autoApprove_gates_pass _ _ _ _ _ _ _ _ _ r Hr Hg).
    pose proof (auto_createDecision is_uuid msg s id reason now uuid now1 now2 r
                  Hs Hr Hg) as H. simpl in H.
    destruct (Approvals.expiresAt r <? now1).
    - rewrite H. eauto.
    - destruct H as (d & s2 & -> & H). eauto 10. }
  assert (Approvals.getRequest s id = None ->
          call = (Throw ("FAIL CLOSED: Approval request not found: " +:+ id), s))
    as Hmissing.
  { intros Hn. unfold call, Approvals.autoApprove. by rewrite Hn. }
  assert (forall r, Approvals.getRequest s id = Some r ->
          auto_gates now r \/ ~ auto_gates now r) as Hdec.
  { intros r _. unfold auto_gates.
    destruct (decide (Approvals.trustLevel r = L4)); [right; tauto |].
    destruct (decide (Approvals.status r = PENDING)); [| right; tauto].
    destruct (Approvals.autoApproveEligible r); [| right; intros (_&_&?&_); done].
    destruct (decide (Approvals.reviewerVerdict r = Some PASS)); [| right; tauto].
    destruct (decide (Approvals.expiresAt r < now)); [right; tauto | left; tauto]. }
  repeat split.
  - intros (d & s' & Hc).
    destruct (Approvals.getRequest s id) as [r|] eqn:Hr.
    2: { rewrite (Hmissing eq_refl) in Hc. done. }
    exists r. split; [done |].
    destruct (Hdec r eq_refl) as [Hg|Hg].
    + split; [done |]. specialize (Hpass r eq_refl Hg).
      destruct (Approvals.expiresAt r <? now1) eqn:E.
      * destruct Hpass as (s1 & Hp). rewrite Hp in Hc. done.
      * apply Z.ltb_ge in E. lia.
    + unfold call in Hc.
      rewrite (autoApprove_gates_fail _ _ _ _ _ _ _ _ _ r Hr Hg) in Hc. done.
  - intros (r & Hr & Hg & Hex). specialize (Hpass r Hr Hg).
    destruct (Approvals.expiresAt r <? now1) eqn:E.
    + apply Z.ltb_lt in E. lia.
    + destruct Hpass as (d & s2 & Hc & _). eauto.
  - destruct (Approvals.getRequest s id) as [r|] eqn:Hr.
    2: { rewrite (Hmissing eq_refl) in H. done. }
    destruct (Hdec r eq_refl) as [Hg|Hg].
    + specialize (Hpass r eq_refl Hg).
      destruct (Approvals.expiresAt r <? now1).
      * destruct Hpass as (s1 & Hp). rewrite Hp in H. done.
      * destruct Hpass as (d' & s2 & Hc & Hd & _). rewrite Hc in H.
        injection H as <- <-. exact Hd.
    + unfold call in H.
      rewrite (autoApprove_gates_fail _ _ _ _ _ _ _ _ _ r Hr Hg) in H. done.
  - destruct (Approvals.getRequest s id) as [r|] eqn:Hr.
    2: { rewrite (Hmissing eq_refl) in H. done. }
    destruct (Hdec r eq_refl) as [Hg|Hg].
    + specialize (Hpass r eq_refl Hg).
      destruct (Approvals.expiresAt r <? now1).
      * destruct Hpass as (s1 & Hp). rewrite Hp in H. done.
      * destruct Hpass as (d' & s2 & Hc & _ & Hd & _). rewrite Hc in H.
        injection H as <- <-. exact Hd.
    + unfold call in H.
      rewrite (autoApprove_gates_fail _ _ _ _ _ _ _ _ _ r Hr Hg) in H. done.
  - destruct (Approvals.getRequest s id) as [r|] eqn:Hr.
    2: { rewrite (Hmissing eq_refl) in H. done. }
    destruct (Hdec r eq_refl) as [Hg|Hg].
    + specialize (Hpass r eq_refl Hg).
      destruct (Approvals.expiresAt r <? now1).
      * destruct Hpass as (s1 & Hp). rewrite Hp in H. done.
      * destruct Hpass as (d' & s2 & Hc & _ & _ & Hd & _). rewrite Hc in H.
        injection H as <- <-. exact Hd.
    + unfold call in H.
      rewrite (autoApprove_gates_fail _ _ _ _ _ _ _ _ _ r Hr Hg) in H. done.
  - destruct (Approvals.getRequest s id) as [r|] eqn:Hr.
    2: { rewrite (Hmissing eq_refl) in H. done. }
    destruct (Hdec r eq_refl) as [Hg|Hg].
    + specialize (Hpass r eq_refl Hg).
      destruct (Approvals.expiresAt r <? now1).
      * destruct Hpass as (s1 & Hp). rewrite Hp in H. done.
      * destruct Hpass as (d' & s2 & Hc & _ & _ & _ & Hd & _). rewrite Hc in H.
        injection H as <- <-. exact Hd.
    + unfold call in H.
      rewrite (autoApprove_gates_fail _ _ _ _ _ _ _ _ _ r Hr Hg) in H. done.
  - destruct (Approvals.getRequest s id) as [r|] eqn:Hr.
    2: { rewrite (Hmissing eq_refl) in H. done. }
    destruct (Hdec r eq_refl) as [Hg|Hg].
    + specialize (Hpass r eq_refl Hg).
      destruct (Approvals.expiresAt r <? now1).
      * destruct Hpass as (s1 & Hp). rewrite Hp in H. done.
      * destruct Hpass as (d' & s2 & Hc & _ & _ & _ & _ & Hd). rewrite Hc in H.
        injection H as <- <-. exact Hd.
    + unfold call in H.
      rewrite (autoApprove_gates_fail _ _ _ _ _ _ _ _ _ r Hr Hg) in H. done.
  - intros r Hr Hg. eapply autoApprove_gates_fail; eauto.
  - exact Hmissing.
  - intros e s' Hc.
    destruct (Approvals.getRequest s id) as [r|] eqn:Hr; [right | by left].
    exists r. split; [done |].
    destruct (Hdec r eq_refl) as [Hg|Hg].
    + split; [done |]. specialize (Hpass r eq_refl Hg).
      destruct (Approvals.expiresAt r <? now1) eqn:E.
      * by apply Z.ltb_lt in E.
      * destruct Hpass as (d & s2 & Hp & _). rewrite Hp in Hc. done.
    + unfold call in Hc.
      rewrite (autoApprove_gates_fail _ _ _ _ _ _ _ _ _ r Hr Hg) in Hc. done.
Qed.

(** An eligible L3 request with verdict PASS, still valid at time 2000, is
    auto-approved. *)
Lemma autoApprove_decides_witness :
  exists d s',
    Approvals.autoApprove Samples.sample_is_uuid "invalid"
      (Samples.store_with (Samples.request_input L3 "COMMIT_POST_ALERT" (Some PASS)))
      Samples.req_1 "Auto test" 2000 Samples.dec_1 2000 2000 = (Ok (Some d), s')
    /\ Approvals.decidedBy d = "system:auto-approve"%string.
Proof.
  pose proof (autoApprove_decides Samples.sample_is_uuid "invalid"
                (Samples.store_with
                   (Samples.request_input L3 "COMMIT_POST_ALERT" (Some PASS)))
                Samples.req_1 "Auto test" 2000 Samples.dec_1 2000 2000
                (Approvals.reach_exec _ _ Approvals.empty_store
                   (Approvals.CallCreateRequest Samples.req_1 1000 1000
                      (Samples.request_input L3 "COMMIT_POST_ALERT" (Some PASS)))
                   (Approvals.reach_empty _ _) (conj eq_refl eq_refl)))
    as (Hiff & Hdec & _).
  destruct (proj2 Hiff) as (d & s' & Hc).
  { eexists. split; [reflexivity |]. unfold auto_gates. simpl.
    repeat split; try done; lia. }
  exists d, s'. split; [exact Hc |]. apply (Hdec d s' Hc).
Defined.

(** C4, the claim as stated fails on its first gate: for a request that
    does not exist [autoApprove] raises an exception instead of returning
    no decision. *)
Lemma autoApprove_missing_request_counterexample :
  fst (Approvals.autoApprove Samples.sample_is_uuid "invalid" Approvals.empty_store
         Samples.req_1 "Auto test" 2000 Samples.dec_1 2000 2000)
  = Throw "FAIL CLOSED: Approval request not found: 22222222-2222-4222-8222-222222222222"
  /\ fst (Approvals.autoApprove Samples.sample_is_uuid "invalid" Approvals.empty_store
            Samples.req_1 "Auto test" 2000 Samples.dec_1 2000 2000)
     <> Ok None.
Proof. split; [reflexivity | discriminate]. Qed.

(** ** One decision for each request *)

Lemma createDecision_keeps is_uuid msg s uuid now now' input id d :
  Approvals.getDecision s id = Some d ->
  Approvals.getDecision
    (snd (Approvals.createDecision is_uuid msg s uuid now now' input)) id = Some d.
Proof.
  intros Hd.
  destruct (Approvals.createDecision is_uuid msg s uuid now now' input)
    as [[d'|e] s'] eqn:E; simpl.
  2: { apply createDecision_Throw in E. by subst. }
  apply createDecision_Ok in E as (_ & r & _ & _ & _ & Hnone & _ & ->).
  unfold Approvals.getDecision. simpl.
  rewrite lookup_insert_ne; [exact Hd |]. intros <-. congruence.
Qed.

Lemma autoApprove_keeps is_uuid msg s id0 reason now uuid now1 now2 id d :
  Approvals.getDecision s id = Some d ->
  Approvals.getDecision
    (snd (Approvals.autoApprove is_uuid msg s id0 reason now uuid now1 now2)) id
  = Some d.
Proof.
  intros Hd. unfold Approvals.autoApprove.
  destruct (Approvals.getRequest s id0) as [r|]; [| exact Hd].
  repeat (case_decide; [exact Hd |]).
  destruct (negb _); [exact Hd |].
  repeat (case_decide; [exact Hd |]).
  destruct (_ <? _); [exact Hd |].
  match goal with
  | |- context [Approvals.createDecision ?u ?m ?s1 ?a ?b ?c ?i] =>
      pose proof (createDecision_keeps u m s1 a b c i id d Hd) as Hk;
      destruct (Approvals.createDecision u m s1 a b c i) as [[d'|e] s2]
  end; exact Hk.
Qed.

Lemma exec_keeps_decision is_uuid msg s c id d :
  Approvals.getDecision s id = Some d ->
  Approvals.getDecision (Approvals.exec is_uuid msg s c) id = Some d.
Proof.
  intros Hd. destruct c; simpl.
  - unfold Approvals.createRequest.
    by destruct (Approvals.valid_request_input is_uuid input).
  - by apply createDecision_keeps.
  - by apply autoApprove_keeps.
  - exact Hd.
Qed.

(** C7, as the code has it. [createDecision] succeeds only on a stored
    request that is PENDING, not expired and undecided, and then turns its
    status into APPROVED or REJECTED and records the decision; a recorded
    decision is never replaced or removed by any later call, so a request
    has at most one decision ever; a failed attempt leaves the store
    unchanged; and in every store reached through the interface a further
    attempt on a decided request is rejected by the status test, with the
    error "Cannot decide on request with status: APPROVED" (or REJECTED). *)
Theorem createDecision_once (is_uuid : string -> bool) (msg : string) :
  (forall s uuid now now' input d s',
     Approvals.createDecision is_uuid msg s uuid now now' input = (Ok d, s') ->
     exists r,
       Approvals.getRequest s (Approvals.cd_approvalRequestId input) = Some r
       /\ Approvals.status r = PENDING
       /\ ~ Approvals.expiresAt r < now
       /\ Approvals.getDecision s (Approvals.cd_approvalRequestId input) = None
       /\ Approvals.getRequest s' (Approvals.cd_approvalRequestId input)
          = Some (Approvals.set_status
                    (match Approvals.cd_decision input with
                     | APPROVE => APPROVED | REJECT => REJECTED end) r)
       /\ Approvals.getDecision s' (Approvals.cd_approvalRequestId input) = Some d
       /\ Approvals.decision d = Approvals.cd_decision input)
  /\ (forall s c id d,
        Approvals.getDecision s id = Some d ->
        Approvals.getDecision (Approvals.exec is_uuid msg s c) id = Some d)
  /\ (forall s uuid now now' input e s',
        Approvals.createDecision is_uuid msg s uuid now now' input = (Throw e, s') ->
        s' = s)
  /\ (forall s d uuid now now' input,
        Approvals.reachable is_uuid msg s ->
        Approvals.getDecision s (Approvals.cd_approvalRequestId input) = Some d ->
        Approvals.valid_decision_input is_uuid input = true ->
        exists r,
          Approvals.getRequest s (Approvals.cd_approvalRequestId input) = Some r
          /\ (Approvals.status r = APPROVED \/ Approvals.status r = REJECTED)
          /\ Approvals.createDecision is_uuid msg s uuid now now' input
             = (Throw ("Cannot decide on request with status: "
                       +:+ ApprovalStatus_str (Approvals.status r)), s)).
Proof.
  split; [| split; [| split]].
  - intros s uuid now now' input d s' Hc.
    apply createDecision_Ok in Hc as (_ & r & Hr & Hp & Hex & Hn & Hd & ->).
    exists r. repeat split; try done.
    + rewrite getRequest_update, decide_True by done. rewrite Hr. simpl.
      by destruct (Approvals.cd_decision input).
    + unfold Approvals.getDecision. simpl. apply lookup_insert_eq.
    + by rewrite Hd.
  - intros. by apply exec_keeps_decision.
  - intros. eapply createDecision_Throw; eauto.
  - intros s d uuid now now' input Hreach Hd Hv.
    apply reachable_consistent in Hreach as [_ HD].
    destruct (HD _ d Hd) as (r & Hr & Hst).
    exists r. split; [exact Hr |]. split.
    + rewrite Hst. destruct (Approvals.decision d); auto.
    + unfold Approvals.createDecision. rewrite Hv, Hr. simpl.
      rewrite decide_True; [done |].
      rewrite Hst. apply decided_status_not_pending.
Qed.

(** A request approved by a first reviewer: the status is APPROVED, the
    decision is recorded, and the attempt of a second reviewer is rejected
    by the status test and changes nothing. *)
Lemma createDecision_once_witness :
  let s0 := Samples.store_with (Samples.request_input L3 "TEST_ACTION" None) in
  let s1 := snd (Approvals.createDecision Samples.sample_is_uuid "invalid" s0
                   Samples.dec_1 2000 2000 (Samples.decision_input "reviewer1" APPROVE)) in
  Approvals.createDecision Samples.sample_is_uuid "invalid" s1
    Samples.dec_2 3000 3000 (Samples.decision_input "reviewer2" REJECT)
  = (Throw "Cannot decide on request with status: APPROVED", s1).
Proof.
  intros s0 s1.
  pose proof (createDecision_once Samples.sample_is_uuid "invalid")
    as (_ & _ & _ & Hagain).
  assert (Approvals.reachable Samples.sample_is_uuid "invalid" s1) as Hreach.
  { apply (Approvals.reach_exec _ _ _
             (Approvals.CallCreateDecision Samples.dec_1 2000 2000
                (Samples.decision_input "reviewer1" APPROVE))); [| exact I].
    apply (Approvals.reach_exec _ _ Approvals.empty_store
             (Approvals.CallCreateRequest Samples.req_1 1000 1000
                (Samples.request_input L3 "TEST_ACTION" None))).
    - apply Approvals.reach_empty.
    - split; reflexivity. }
  destruct (Hagain s1 _ Samples.dec_2 3000 3000
              (Samples.decision_input "reviewer2" REJECT) Hreach eq_refl eq_refl)
    as (r' & Hr' & _ & Hc).
  vm_compute in Hr'. injection Hr' as <-. exact Hc.
Defined.

(** C7, the claim as stated fails: the second attempt on a decided request
    is rejected, but by the status test, whose error is not the
    "already decided" one. *)
Lemma second_decision_counterexample :
  let s0 := Samples.store_with (Samples.request_input L3 "TEST_ACTION" None) in
  let s1 := snd (Approvals.createDecision Samples.sample_is_uuid "invalid" s0
                   Samples.dec_1 2000 2000 (Samples.decision_input "reviewer1" APPROVE)) in
  let second := Approvals.createDecision Samples.sample_is_uuid "invalid" s1
                  Samples.dec_2 3000 3000 (Samples.decision_input "reviewer2" REJECT) in
  is_Some (Approvals.getDecision s1 Samples.req_1)
  /\ fst second = Throw "Cannot decide on request with status: APPROVED"
  /\ fst second <> Throw "A decision has already been made for this request".
Proof.
  vm_compute. split; [eauto |]. split; [reflexivity | discriminate].
Qed.

(** ** Pending requests *)

Section SortFacts.
Context {A : Type} (key : A -> Z).





End SortFacts.





(** ** The trust level of a tool *)

Lemma override_for_entry (g : TrustGates.TrustGate) (tool : ToolDefinition) :
  ~ finds_member g tool ->
  TrustGates.override_for g tool
  = match TrustGates.toolOverrides (TrustGates.config g)
          ≫= (fun m => m !! name tool) with
    | Some level => Own level
    | None => Undefined
    end.
Proof.
  intros Hno. unfold TrustGates.override_for, object_get.
  destruct (TrustGates.toolOverrides (TrustGates.config g)) as [table|] eqn:Ht;
    simpl; [| done].
  destruct (table !! name tool) as [level|] eqn:Hl; [done |].
  destruct (inherited (name tool)) eqn:Hin; [| done].
  exfalso. apply Hno. by exists table.
Qed.

Lemma getTrustLevelForTool_spec (g : TrustGates.TrustGate) (tool : ToolDefinition) :
  ~ finds_member g tool ->
  TrustGates.getTrustLevelForTool g tool
  = TrustGates.Level
      (Spec.spec_trust_level
         (TrustGates.toolOverrides (TrustGates.config g) ≫= (fun m => m !! name tool))
         (risk tool) (capability tool)).
Proof.
  intros Hno.
  unfold TrustGates.getTrustLevelForTool, Spec.spec_trust_level.
  rewrite (override_for_entry _ _ Hno).
  destruct (_ ≫= _); [done |]. f_equal.
  destruct (risk tool), (capability tool);
    repeat case_decide; try done; naive_solver.
Qed.

Lemma getTrustLevelForTool_member (g : TrustGates.TrustGate) (tool : ToolDefinition) :
  finds_member g tool ->
  TrustGates.getTrustLevelForTool g tool = TrustGates.MemberValue (name tool).
Proof.
  intros (table & Ht & Hl & Hin).
  unfold TrustGates.getTrustLevelForTool, TrustGates.override_for, object_get.
  by rewrite Ht, Hl, Hin.
Qed.

(** The chain of trust levels. Unless the override lookup finds a member of
    [Object.prototype], the trust level the gate computes for a tool is the
    explicit override of the domain configuration when there is one;
    otherwise L4 for risk CRITICAL; otherwise L3 for risk HIGH with
    capability SIDE_EFFECTS; otherwise L2 for risk HIGH or capability
    WRITE; otherwise L1 for capability PROPOSE; otherwise L0. When the
    lookup finds a member, the gate takes the member for the level. *)
Theorem getTrustLevelForTool_chain
    (g : TrustGates.TrustGate) (tool : ToolDefinition) :
  let override :=
    TrustGates.toolOverrides (TrustGates.config g) ≫= (fun m => m !! name tool) in
  let level := TrustGates.getTrustLevelForTool g tool in
  (finds_member g tool -> level = TrustGates.MemberValue (name tool))
  /\ (~ finds_member g tool ->
      level = TrustGates.Level
                (Spec.spec_trust_level override (risk tool) (capability tool))
      /\ (forall l, override = Some l -> level = TrustGates.Level l)
      /\ (override = None ->
          (risk tool = CRITICAL -> level = TrustGates.Level L4)
          /\ (risk tool = HIGH -> capability tool = SIDE_EFFECTS ->
              level = TrustGates.Level L3)
          /\ (risk tool <> CRITICAL ->
              ~ (risk tool = HIGH /\ capability tool = SIDE_EFFECTS) ->
              risk tool = HIGH \/ capability tool = WRITE ->
              level = TrustGates.Level L2)
          /\ (risk tool <> CRITICAL -> risk tool <> HIGH ->
              capability tool <> WRITE -> capability tool = PROPOSE ->
              level = TrustGates.Level L1)
          /\ (risk tool <> CRITICAL -> risk tool <> HIGH ->
              capability tool <> WRITE -> capability tool <> PROPOSE ->
              level = TrustGates.Level L0))).
Proof.
  intros override level. split; [apply getTrustLevelForTool_member |].
  intros Hno.
  assert (level = TrustGates.Level
                    (Spec.spec_trust_level override (risk tool) (capability tool)))
    as Hspec by by apply getTrustLevelForTool_spec.
  split; [exact Hspec |]. rewrite Hspec. split.
  - by intros l ->.
  - intros ->. simpl.
    destruct (risk tool), (capability tool); repeat split; intros; try done;
      naive_solver.
Qed.

(** A gate whose configuration overrides [asi.commit_send_invoice] to L4
    and has no entry for [asi.post_notice]: the override wins over the LOW
    risk of the first tool, and the second, of risk HIGH with side effects,
    is L3. *)
Lemma getTrustLevelForTool_chain_witness :
  let g := {| TrustGates.config :=
                {| TrustGates.cfg_domain := asi;
                   TrustGates.defaultTrustLevel := L1;
                   TrustGates.requireApprovalAbove := L2;
                   TrustGates.sandboxWriteOps := true;
                   TrustGates.toolOverrides :=
                     Some {[ "asi.commit_send_invoice"%string := L4 ]} |};
              TrustGates.stagePolicies := TrustGates.DEFAULT_STAGE_POLICIES |} in
  let tool n r c :=
    {| name := n; description := ""; capability := c; risk := r;
       executionMode := DIRECT; verification := NONE |} in
  TrustGates.getTrustLevelForTool g (tool "asi.commit_send_invoice"%string LOW READ)
  = TrustGates.Level L4
  /\ TrustGates.getTrustLevelForTool g (tool "asi.post_notice"%string HIGH SIDE_EFFECTS)
     = TrustGates.Level L3.
Proof.
  intros g tool.
  assert (forall n r c, inherited n = false -> ~ finds_member g (tool n r c)) as Hno.
  { intros n r c Hn (table & _ & _ & Hin). simpl in Hin. congruence. }
  assert (~ finds_member g (tool "asi.commit_send_invoice"%string LOW READ)) as H1
    by (apply Hno; vm_compute; reflexivity).
  assert (~ finds_member g (tool "asi.post_notice"%string HIGH SIDE_EFFECTS)) as H2
    by (apply Hno; vm_compute; reflexivity).
  split.
  - apply (proj1 (proj2 (proj2 (getTrustLevelForTool_chain g
                           (tool "asi.commit_send_invoice"%string LOW READ))
                    H1))).
    reflexivity.
  - apply (proj1 (proj2 (proj2 (proj2 (proj2 (getTrustLevelForTool_chain g
                           (tool "asi.post_notice"%string HIGH SIDE_EFFECTS))
                    H2))
                    eq_refl))); reflexivity.
Defined.

(** C8, where the code departs from the claim. The gate has the default
    configuration, whose override table is the empty object, and the tool
    is of risk CRITICAL: the chain gives L4. Named "constructor", the tool
    gets the member of that name of [Object.prototype] for its trust level,
    because the table is read with [toolOverrides[tool.name]]; the value is
    no trust level, it sorts below L0, and the gate allows the tool in the
    plan stage. Under any name that objects do not inherit the same tool is
    L4 and the gate denies it. *)
Theorem critical_tool_named_constructor :
  let g := Samples.default_config_gate in
  let context := Samples.sample_context (fun _ => Ok []) in
  let tool := Samples.critical_tool "constructor" in
  let other := Samples.critical_tool "asi.transfer_funds" in
  Spec.spec_trust_level
    (TrustGates.toolOverrides (TrustGates.config g) ≫= (fun m => m !! name tool))
    (risk tool) (capability tool) = L4
  /\ TrustGates.getTrustLevelForTool g tool = TrustGates.MemberValue "constructor"
  /\ TrustGates.getTrustLevelForTool g tool <> TrustGates.Level L4
  /\ TrustGates.allowed (TrustGates.evaluate g tool plan context) = true
  /\ TrustGates.trustLevel (TrustGates.evaluate g tool plan context)
     = TrustGates.MemberValue "constructor"
  /\ TrustGates.getTrustLevelForTool g other = TrustGates.Level L4
  /\ TrustGates.allowed (TrustGates.evaluate g other plan context) = false.
Proof. vm_compute. repeat split. discriminate. Qed.

(** ** The trust gate and an approved request *)

Lemma verify_gates_1_to_6 date_to_string b now runId toolName toolDef r :
  boundary_gates_1_to_6 b runId toolName toolDef r ->
  CommitTools.verifyCommitEligibility date_to_string b now runId toolName
  = if Approvals.expiresAt r <? now then
      CommitTools.deny
        ("FAIL CLOSED: Approval request has expired at "
         +:+ date_to_string (Approvals.expiresAt r) +:+ ". "
         +:+ "A new approval must be requested.") (Some r)
    else
      let granted staged :=
        {| CommitTools.eligible := true; CommitTools.reason := None;
           CommitTools.approvalRequest := Some r;
           CommitTools.stagedChanges := staged |} in
      if String.eqb toolName "asi.commit_apply_changes" then
        match CommitTools.context_sandboxId r with
        | Some sandboxId =>
            if truthy sandboxId then
              match CommitTools.sandbox_getStagedChanges b sandboxId with
              | Throw e =>
                  CommitTools.deny
                    ("FAIL CLOSED: Failed to get staged changes - " +:+ e) (Some r)
              | Ok changes =>
                  if bool_decide (changes = []) then
                    CommitTools.deny
                      ("FAIL CLOSED: No staged changes found to commit. "
                       +:+ "Changes must be staged before commit_apply_changes.")
                      (Some r)
                  else granted (Some changes)
              end
            else granted None
        | None => granted None
        end
      else granted None.
Proof.
  intros (H1 & H2 & H3 & (requests & Hq & Hf) & H4 & H5 & H6).
  unfold CommitTools.verifyCommitEligibility.
  apply truthy_true in H1. apply truthy_true in H2. rewrite H1, H2. simpl.
  rewrite H3, Hq.
  rewrite bool_decide_eq_false_2 by (intros ->; discriminate).
  rewrite Hf.
  destruct (_ <? _) eqn:E4; [apply Z.ltb_lt in E4; lia |].
  rewrite bool_decide_eq_false_2 by (intros ?; congruence).
  rewrite bool_decide_eq_false_2 by (intros ?; congruence).
  reflexivity.
Qed.

(** C10. When evaluation reaches the approval lookup and the request found
    for the run is APPROVED with the reviewer-verdict requirement met,
    [evaluateWithApproval] allows the call even though the request's
    [expiresAt] is in the past: the method reads no clock. A request found
    with the terminal status EXPIRED is denied. The commit boundary, given
    the same kind of request at its gates 1 to 6, denies at gate 7. *)
Theorem approved_request_allowed_after_expiry :
  (forall g tool stage ctx getRequestsByRunId requests r now,
     let basic := TrustGates.evaluate g tool stage ctx in
     TrustGates.approvalStore ctx = Some getRequestsByRunId ->
     TrustGates.requiresApproval basic = true ->
     getRequestsByRunId (TrustGates.runId ctx) = Ok requests ->
     List.find (TrustGates.relevant_to tool) requests = Some r ->
     (TrustGates.requiresReviewerVerdict basic = true ->
      Approvals.reviewerVerdict r = Some PASS) ->
     (Approvals.status r = APPROVED ->
      Approvals.expiresAt r < now ->
      let result := TrustGates.evaluateWithApproval g tool stage ctx in
      TrustGates.allowed result = true
      /\ TrustGates.approvalStatus result = Some APPROVED
      /\ TrustGates.approvalId result = Some (Approvals.req_id r))
     /\ (Approvals.status r = EXPIRED ->
         let result := TrustGates.evaluateWithApproval g tool stage ctx in
         TrustGates.allowed result = false
         /\ TrustGates.reason result = Some "Approval expired"%string))
  /\ (forall date_to_string b now runId toolName toolDef r,
        boundary_gates_1_to_6 b runId toolName toolDef r ->
        Approvals.expiresAt r < now ->
        let result :=
          CommitTools.verifyCommitEligibility date_to_string b now runId toolName in
        CommitTools.eligible result = false
        /\ CommitTools.reason result
           = Some ("FAIL CLOSED: Approval request has expired at "
                   +:+ date_to_string (Approvals.expiresAt r) +:+ ". "
                   +:+ "A new approval must be requested.")).
Proof.
  split.
  - intros g tool stage ctx getReqs requests r now basic Hstore Hreq Hq Hf Hv.
    split.
    + intros Hst _. simpl.
      unfold TrustGates.evaluateWithApproval. fold basic.
      rewrite Hreq, andb_false_r, Hstore. simpl. rewrite Hq, Hf.
      rewrite decide_True by done.
      destruct (TrustGates.requiresReviewerVerdict basic) eqn:Ev; simpl; [| done].
      rewrite bool_decide_eq_false_2 by (rewrite Hv; [tauto | done]). done.
    + intros Hst. simpl.
      unfold TrustGates.evaluateWithApproval. fold basic.
      rewrite Hreq, andb_false_r, Hstore. simpl. rewrite Hq, Hf.
      rewrite decide_False by (rewrite Hst; done).
      rewrite decide_False by (rewrite Hst; done).
      rewrite Hst. done.
  - intros date_to_string b now runId toolName toolDef r Hg Hex result.
    unfold result. rewrite (verify_gates_1_to_6 _ _ _ _ _ _ _ Hg).
    apply Z.ltb_lt in Hex. rewrite Hex. done.
Qed.

(** The run holds an APPROVED request that expired at time 1000; at time
    5000 the trust gate allows [asi.commit_post_alert] in the commit stage
    and the commit boundary denies it. *)
Lemma approved_request_allowed_after_expiry_witness :
  let store := fun _ : string => Ok [Samples.expired_approved_request] in
  TrustGates.allowed
    (TrustGates.evaluateWithApproval Samples.sample_gate Samples.post_alert_tool
       commit (Samples.sample_context store)) = true
  /\ CommitTools.eligible
       (CommitTools.verifyCommitEligibility Samples.sample_date_to_string
          {| CommitTools.store_getRequestsByRunId := store;
             CommitTools.sandbox_getStagedChanges := fun _ => Ok [] |}
          5000 Samples.run_1 "asi.commit_post_alert") = false.
Proof.
  intros store.
  destruct approved_request_allowed_after_expiry as [Hgate Hboundary].
  split.
  - refine (proj1 (proj1 (Hgate Samples.sample_gate Samples.post_alert_tool commit
                            (Samples.sample_context store) store
                            [Samples.expired_approved_request]
                            Samples.expired_approved_request 5000
                            eq_refl _ eq_refl eq_refl (fun _ => eq_refl))
                     eq_refl _)).
    + vm_compute. reflexivity.
    + vm_compute. reflexivity.
  - refine (proj1 (Hboundary Samples.sample_date_to_string _ 5000 Samples.run_1
                     "asi.commit_post_alert"%string
                     {| CommitTools.tool_name := "asi.commit_post_alert";
                        CommitTools.tool_description :=
                          "Post an alert to notification channels";
                        CommitTools.minTrustLevel := L3;
                        CommitTools.tool_actionType := "COMMIT_POST_ALERT";
                        CommitTools.tool_autoApproveEligible := true;
                        CommitTools.tool_risk := MEDIUM |}
                     Samples.expired_approved_request _ _)).
    + unfold boundary_gates_1_to_6.
      split; [discriminate |]. split; [discriminate |].
      split; [vm_compute; reflexivity |].
      split; [exists [Samples.expired_approved_request]; split; reflexivity |].
      split; [vm_compute; discriminate |].
      split; reflexivity.
    + vm_compute. reflexivity.
Defined.

(** ** The commit boundary *)

Lemma prefix_append (m s : string) : String.prefix m (m +:+ s) = true.
Proof.
  induction m as [|a m IH]; simpl; [by destruct s |].
  destruct (ascii_dec a a); [exact IH | done].
Qed.

Ltac is_prefix := first [ reflexivity | apply prefix_append ].

Ltac has_marker :=
  first [ solve [eexists; split; [apply list_elem_of_here | is_prefix]]
        | solve [eexists; split;
                 [apply list_elem_of_further, list_elem_of_here | is_prefix]] ].

Ltac other_markers :=
  let g' := fresh "g" in
  let m' := fresh "m" in
  let Hm := fresh "Hm" in
  let Hp := fresh "Hp" in
  intros g' m' Hm Hp; destruct g'; simpl in Hm;
  repeat (apply elem_of_cons in Hm as [->|Hm]);
  try (by apply elem_of_nil in Hm);
  first [ reflexivity | exfalso; cbv in Hp; discriminate Hp ].

Ltac solve_denied :=
  unfold denied_at, CommitTools.deny;
  cbn [CommitTools.eligible CommitTools.reason];
  split; [reflexivity |];
  eexists; split; [reflexivity |];
  split; [reflexivity |];
  split; [has_marker | other_markers].

Ltac bd_true P := rewrite (bool_decide_eq_true_2 P) by first [done | lia | tauto].
Ltac bd_false P := rewrite (bool_decide_eq_false_2 P) by first [done | lia | tauto].

(** A name that no object inherits is looked up among the entries of the
    registry only. *)
Lemma getCommitTool_not_inherited toolName :
  inherited toolName = false ->
  CommitTools.getCommitTool toolName
  = match CommitTools.COMMIT_TOOLS !! toolName with
    | Some toolDef => Own toolDef
    | None => Undefined
    end.
Proof.
  intros Hn. unfold CommitTools.getCommitTool, object_get. by rewrite Hn.
Qed.

Lemma getCommitTool_entry toolName toolDef :
  CommitTools.COMMIT_TOOLS !! toolName = Some toolDef ->
  CommitTools.getCommitTool toolName = Own toolDef.
Proof.
  intros He. unfold CommitTools.getCommitTool, object_get. by rewrite He.
Qed.

Lemma verify_first_failed_gate date_to_string b now runId toolName :
  inherited toolName = false ->
  let res := CommitTools.verifyCommitEligibility date_to_string b now runId toolName in
  match Spec.first_failed_gate b now runId toolName with
  | None => CommitTools.eligible res = true /\ CommitTools.reason res = None
  | Some g => denied_at g res
  end.
Proof.
  intros Hown.
  unfold Spec.first_failed_gate, CommitTools.verifyCommitEligibility.
  rewrite (getCommitTool_not_inherited _ Hown).
  destruct (decide (runId = ""%string)) as [->|H1].
  { bd_true (""%string = ""%string \/ toolName = ""%string). solve_denied. }
  destruct (decide (toolName = ""%string)) as [->|H2].
  { bd_true (runId = ""%string \/ ""%string = ""%string).
    rewrite (proj2 (truthy_true _) H1). solve_denied. }
  rewrite (proj2 (truthy_true _) H1), (proj2 (truthy_true _) H2).
  bd_false (runId = ""%string \/ toolName = ""%string). cbn [negb].
  destruct (CommitTools.COMMIT_TOOLS !! toolName) as [toolDef|]; [| solve_denied].
  unfold or_undefined.
  cbn [CommitTools.minTrustLevel_of CommitTools.actionType_of fmap option_fmap
       option_map default from_option id].
  destruct (CommitTools.store_getRequestsByRunId b runId) as [requests|e];
    [| solve_denied].
  destruct requests as [|r0 requests'].
  { bd_true (@nil Approvals.ApprovalRequest = []). solve_denied. }
  bd_false (r0 :: requests' = []).
  destruct (List.find _ (r0 :: requests')) as [r|]; [| solve_denied].
  destruct (Z.ltb_spec (trust_index (Approvals.trustLevel r))
                       (trust_index (CommitTools.minTrustLevel toolDef))).
  { bd_true (trust_index (Approvals.trustLevel r)
             < trust_index (CommitTools.minTrustLevel toolDef)). solve_denied. }
  bd_false (trust_index (Approvals.trustLevel r)
            < trust_index (CommitTools.minTrustLevel toolDef)).
  destruct (bool_decide (Approvals.status r <> APPROVED)); [solve_denied |].
  destruct (bool_decide (Approvals.reviewerVerdict r <> Some PASS));
    [solve_denied |].
  destruct (Z.ltb_spec (Approvals.expiresAt r) now).
  { bd_true (Approvals.expiresAt r < now). solve_denied. }
  bd_false (Approvals.expiresAt r < now).
  destruct (String.eqb_spec toolName "asi.commit_apply_changes") as [->|Hne].
  2: { bd_false (toolName = "asi.commit_apply_changes"%string). done. }
  bd_true ("asi.commit_apply_changes"%string = "asi.commit_apply_changes"%string).
  destruct (CommitTools.context_sandboxId r) as [sandboxId|]; [| done].
  destruct (decide (sandboxId = ""%string)) as [->|Hs].
  { bd_true (""%string = ""%string). done. }
  bd_false (sandboxId = ""%string).
  rewrite (proj2 (truthy_true _) Hs).
  destruct (CommitTools.sandbox_getStagedChanges b sandboxId) as [[|c cs]|e].
  - bd_true (@nil Sandbox.StagedChange = []). solve_denied.
  - bd_false (c :: cs = []). done.
  - solve_denied.
Qed.

Lemma gate_8_stated_tested b toolName r :
  Spec.gate_8_stated b toolName r -> gate_8_tested b toolName r.
Proof.
  intros H Ht sandboxId Hs _. destruct (H Ht) as (sid & changes & Hs' & Hc & Hn).
  rewrite Hs in Hs'. injection Hs' as <-. eauto.
Qed.

Lemma first_failed_gate_None b now runId toolName :
  Spec.first_failed_gate b now runId toolName = None ->
  exists toolDef r,
    boundary_gates_1_to_6 b runId toolName toolDef r
    /\ ~ Approvals.expiresAt r < now
    /\ gate_8_tested b toolName r.
Proof.
  unfold Spec.first_failed_gate, boundary_gates_1_to_6.
  case_bool_decide as H1; [done |].
  destruct (CommitTools.COMMIT_TOOLS !! toolName) as [toolDef|] eqn:Hentry;
    [| done].
  apply getCommitTool_entry in Hentry.
  destruct (CommitTools.store_getRequestsByRunId b runId) as [requests|e]; [| done].
  destruct (List.find _ requests) as [r|] eqn:Hf; [| done].
  case_bool_decide as H4; [done |].
  case_bool_decide as H5; [done |].
  case_bool_decide as H6; [done |].
  case_bool_decide as H7; [done |].
  intros H8. exists toolDef, r.
  split.
  { repeat split; try tauto; eauto; try lia;
      try (by destruct (decide (Approvals.status r = APPROVED)));
      try (by destruct (decide (Approvals.reviewerVerdict r = Some PASS))). }
  split; [done |].
  intros Ht sandboxId Hs Hne. revert H8.
  rewrite bool_decide_eq_true_2 by done. rewrite Hs.
  rewrite bool_decide_eq_false_2 by done.
  destruct (CommitTools.sandbox_getStagedChanges b sandboxId) as [[|c cs]|e];
    try done.
  intros _. eexists. split; [reflexivity | done].
Qed.

(** What [verifyCommitEligibility] decides for a tool name that is not the
    name of a member of [Object.prototype]. It answers eligible exactly
    when gates 1 to 7 pass on the first request of the run that matches the
    tool and, for [apply_changes] with a sandbox named by that request,
    the sandbox has staged changes; every denial carries a reason that
    starts with "FAIL CLOSED: " followed by words of the first failing gate
    and of no other gate. *)
Theorem verifyCommitEligibility_gates
    (date_to_string : Z -> string) (b : CommitTools.Boundary) (now : Z)
    (runId toolName : string) :
  inherited toolName = false ->
  let res := CommitTools.verifyCommitEligibility date_to_string b now runId toolName in
  (CommitTools.eligible res = true <->
   exists toolDef r,
     boundary_gates_1_to_6 b runId toolName toolDef r
     /\ ~ Approvals.expiresAt r < now
     /\ gate_8_tested b toolName r)
  /\ (CommitTools.eligible res = false ->
      exists g, Spec.first_failed_gate b now runId toolName = Some g
                /\ denied_at g res).
Proof.
  intros Hown res.
  pose proof (verify_first_failed_gate date_to_string b now runId toolName Hown)
    as Hv.
  simpl in Hv. fold res in Hv.
  split; [split |].
  - intros He.
    destruct (Spec.first_failed_gate b now runId toolName) as [g|] eqn:Hg.
    + destruct Hv as [Hv _]. congruence.
    + by apply first_failed_gate_None.
  - intros (toolDef & r & Hg & Hex & H8).
    unfold res. rewrite (verify_gates_1_to_6 _ _ _ _ _ _ _ Hg).
    destruct (Z.ltb_spec (Approvals.expiresAt r) now); [lia |].
    cbv zeta.
    destruct (String.eqb_spec toolName "asi.commit_apply_changes") as [Ht|]; [| done].
    destruct (CommitTools.context_sandboxId r) as [sandboxId|] eqn:Hs; [| done].
    destruct (truthy sandboxId) eqn:Htr; [| done].
    apply truthy_true in Htr.
    destruct (H8 Ht sandboxId Hs Htr) as (changes & -> & Hn).
    by rewrite bool_decide_eq_false_2.
  - intros He.
    destruct (Spec.first_failed_gate b now runId toolName) as [g|].
    + eauto.
    + destruct Hv as [Hv _]. congruence.
Qed.

(** A tool name that every object inherits passes gate 2 although the
    registry has no entry of that name, and gate 4 whatever the trust level
    of the request: the lookup [COMMIT_TOOLS[toolName]] finds the inherited
    member, which is truthy and has no [minTrustLevel]. Here the run holds
    an APPROVED, unexpired L0 request with verdict PASS whose action type
    is "constructor". *)
Example inherited_name_passes_gate_2 :
  let request :=
    {| Approvals.req_id := Samples.req_1;
       Approvals.createdAt := 0;
       Approvals.domain := asi;
       Approvals.runId := Samples.run_1;
       Approvals.workflowName := "daily_ops_brief";
       Approvals.requestedBy := "worker";
       Approvals.trustLevel := L0;
       Approvals.actionType := "constructor";
       Approvals.actionPayload := [];
       Approvals.status := APPROVED;
       Approvals.expiresAt := 3600000;
       Approvals.context := None;
       Approvals.reviewerVerdict := Some PASS;
       Approvals.reviewerNotes := None;
       Approvals.autoApproveEligible := false;
       Approvals.autoApproveReason := None |} in
  let b :=
    {| CommitTools.store_getRequestsByRunId := fun _ => Ok [request];
       CommitTools.sandbox_getStagedChanges := fun _ => Ok [] |} in
  CommitTools.COMMIT_TOOLS !! "constructor"%string = None
  /\ CommitTools.isCommitTool "constructor" = true
  /\ CommitTools.eligible
       (CommitTools.verifyCommitEligibility Samples.sample_date_to_string b 1000
          Samples.run_1 "constructor") = true
  /\ Spec.first_failed_gate b 1000 Samples.run_1 "constructor" = Some Spec.Gate2.
Proof. vm_compute. repeat split. Qed.

(** C2, where the code departs from the claim. The run holds an APPROVED,
    unexpired L3 request with verdict PASS for [COMMIT_APPLY_CHANGES] whose
    context names no sandbox, and nothing is staged anywhere: gate 8 as
    stated fails, yet [verifyCommitEligibility] answers eligible, with no
    staged changes. *)
Lemma apply_changes_without_sandbox_eligible :
  let res :=
    CommitTools.verifyCommitEligibility Samples.sample_date_to_string
      Samples.apply_changes_boundary 1000 Samples.run_1 "asi.commit_apply_changes" in
  CommitTools.eligible res = true
  /\ CommitTools.approvalRequest res = Some Samples.apply_changes_request
  /\ CommitTools.stagedChanges res = None
  /\ ~ Spec.gate_8_stated Samples.apply_changes_boundary "asi.commit_apply_changes"
         Samples.apply_changes_request.
Proof.
  vm_compute. repeat split.
  intros H. destruct (H eq_refl) as (sid & changes & Hs & _). discriminate Hs.
Qed.

(** ** The sandbox when Docker is unavailable *)



(** Without a fresh cache entry the probe decides: Docker counts as
    unavailable when [docker version] fails or cannot be run. *)
Lemma isDockerAvailable_probe_fails sb w :
  (Sandbox.dockerAvailabilityCache sb = None
   \/ Sandbox.DOCKER_CACHE_TTL_MS
      <= Sandbox.w_now w - Sandbox.dockerAvailabilityCacheTime sb) ->
  (forall r, Sandbox.w_docker_probe w = Ok r -> Sandbox.cmd_exitCode r <> 0) ->
  fst (Sandbox.isDockerAvailable sb w) = false.
Proof.
  intros Hcache Hprobe. unfold Sandbox.isDockerAvailable.
  assert (match Sandbox.w_docker_probe w with
          | Ok r => (Sandbox.cmd_exitCode r =? 0,
                     Sandbox.with_cache sb (Sandbox.cmd_exitCode r =? 0)
                       (Sandbox.w_now w))
          | Throw _ => (false, Sandbox.with_cache sb false (Sandbox.w_now w))
          end.1 = false) as Hp.
  { destruct (Sandbox.w_docker_probe w) as [r|e]; [| done]. simpl.
    apply Z.eqb_neq. by apply Hprobe. }
  destruct (Sandbox.dockerAvailabilityCache sb) as [cached|]; [| exact Hp].
  destruct Hcache as [|Hold]; [done |].
  destruct (Z.ltb_spec (Sandbox.w_now w - Sandbox.dockerAvailabilityCacheTime sb)
                       Sandbox.DOCKER_CACHE_TTL_MS); [lia | exact Hp].
Qed.








(** ** The orchestrator and a failed review *)

Section OrchestratorFacts.
Context {S : Type}.
Variable store_createRequest :
  S -> Orchestrator.ApprovalRequestInput -> outcome Approvals.ApprovalRequest * S.
Variable store_autoApprove :
  S -> string -> string -> outcome (option Approvals.ApprovalDecision) * S.
Variable runAgent :
  nat -> AgentDefinition -> WorkflowStage -> string -> option ReviewerVerdict ->
  outcome Orchestrator.AgentRunResult.
Variable has_store : bool.

Abbreviation LoopState := (Orchestrator.LoopState S).
Abbreviation run_stage :=
  (Orchestrator.run_stage S store_createRequest store_autoApprove runAgent has_store).
Abbreviation run_stages :=
  (Orchestrator.run_stages S store_createRequest store_autoApprove runAgent has_store).
Abbreviation createApprovalRequest :=
  (Orchestrator.createApprovalRequest S store_createRequest has_store).

Lemma createApprovalRequest_actions w runId agentName stageResult verdict notes
    (st : LoopState) :
  let out := createApprovalRequest w runId agentName stageResult verdict notes st in
  (Orchestrator.ls_actions S out.2 = Orchestrator.ls_actions S st
   \/ exists input,
        Orchestrator.ls_actions S out.2
        = Orchestrator.ls_actions S st ++ [Orchestrator.ActCreateRequest input])
  /\ Orchestrator.ls_finalStatus S out.2 = Orchestrator.ls_finalStatus S st
  /\ Orchestrator.ls_finalResult S out.2 = Orchestrator.ls_finalResult S st
  /\ Orchestrator.ls_reviewerVerdict S out.2 = Orchestrator.ls_reviewerVerdict S st.
Proof.
  unfold Orchestrator.createApprovalRequest.
  destruct has_store; simpl; [| auto].
  destruct (List.find _ _) as [call|]; [| auto].
  destruct (CommitTools.getCommitTool _) as [def|key|]; [| | auto];
    simpl; destruct (store_createRequest _ _) as [[request|e] s']; simpl;
    eauto 10.
Qed.

Lemma commit_activity_run stage agent v (res : outcome Orchestrator.AgentRunResult) :
  Orchestrator.commit_activity (Orchestrator.ActRunAgent stage agent v res) = true ->
  stage = commit.
Proof. by destruct stage. Qed.

Lemma review_failed_run stage agent v (res : Orchestrator.AgentRunResult) :
  Orchestrator.review_failed (Orchestrator.ActRunAgent stage agent v (Ok res))
  = bool_decide (stage = review)
    && bool_decide (Orchestrator.run_reviewerVerdict res = Some FAIL).
Proof. by destruct stage. Qed.

Lemma run_stage_actions w options runId stage (st : LoopState) :
  let out := run_stage w options runId stage st in
  exists new,
    Orchestrator.ls_actions S out.2 = Orchestrator.ls_actions S st ++ new
    /\ (existsb Orchestrator.commit_activity new = true -> stage = commit)
    /\ (existsb Orchestrator.review_failed new = true ->
        stage = review
        /\ out.1 = Orchestrator.Break
        /\ Orchestrator.ls_finalStatus S out.2 = Orchestrator.failed
        /\ Orchestrator.ls_reviewerVerdict S out.2 = Some FAIL
        /\ Orchestrator.ls_finalResult S out.2 <> Orchestrator.ResultUndefined
        /\ exists a e, new = [a; e]
                       /\ Orchestrator.review_failed a = true
                       /\ Orchestrator.is_blocked_event e = true).
Proof.
  unfold Orchestrator.run_stage.
  destruct (Orchestrator.getAgentForStage (agents w) stage) as [agent|].
  2: { simpl. eexists. split; [reflexivity |]. simpl. split; intros; done. }
  destruct (bool_decide (stage = commit)
            && bool_decide (Orchestrator.ls_reviewerVerdict S st = None)).
  { simpl. eexists. split; [reflexivity |]. simpl. split; intros; done. }
  destruct (runAgent _ agent stage _ _) as [stageResult|e].
  2: { simpl. eexists. split; [reflexivity |].
       destruct stage; simpl; split; intros; done. }
  match goal with
  | |- context [Orchestrator.set_outcome S ?x Orchestrator.failed _ _] =>
      remember x as st1 eqn:Hst1
  end.
  set (run := Orchestrator.ActRunAgent stage agent
                (Orchestrator.ls_reviewerVerdict S st) (Ok stageResult)) in *.
  assert (Orchestrator.ls_actions S st1 = Orchestrator.ls_actions S st ++ [run])
    as Hact1.
  { subst st1. destruct (bool_decide _); [| done].
    by destruct (Orchestrator.run_reviewerVerdict stageResult). }
  assert (bool_decide (stage = review) = true ->
          Orchestrator.run_reviewerVerdict stageResult = Some FAIL ->
          Orchestrator.ls_reviewerVerdict S st1 = Some FAIL) as Hv1.
  { intros Hrev Hf. subst st1. rewrite Hrev, Hf. reflexivity. }
  clear Hst1.
  pose proof (review_failed_run stage agent (Orchestrator.ls_reviewerVerdict S st)
                stageResult) as Hrf. fold run in Hrf.
  pose proof (commit_activity_run stage agent (Orchestrator.ls_reviewerVerdict S st)
                (Ok stageResult)) as Hca. fold run in Hca.
  clearbody run.
  destruct (bool_decide (stage = review)
            && bool_decide (Orchestrator.run_reviewerVerdict stageResult = Some FAIL))
    eqn:Hfail.
  { apply andb_true_iff in Hfail as [Hrev Hf].
    apply bool_decide_eq_true in Hf.
    simpl. rewrite Hact1, <- ?app_assoc. eexists. split; [reflexivity |].
    apply bool_decide_eq_true in Hrev as Hstage. split.
    - intros H. simpl in H. rewrite orb_false_r in H. exact (Hca H).
    - intros _. repeat split; try done.
      + by apply Hv1.
      + by destruct (Orchestrator.output stageResult).
      + eexists _, _. split; [reflexivity |].
        split; [exact Hrf | reflexivity]. }
  destruct (bool_decide (Orchestrator.run_status stageResult
                         = Orchestrator.requires_approval)).
  { destruct (has_store && _ && bool_decide (stage = commit)) eqn:Hc.
    - apply andb_true_iff in Hc as [_ Hc]. apply bool_decide_eq_true in Hc.
      subst stage.
      match goal with
      | |- context [createApprovalRequest ?a ?b ?c ?d ?e ?f ?g] =>
          pose proof (createApprovalRequest_actions a b c d e f g) as Hcar;
          destruct (createApprovalRequest a b c d e f g) as [request st2]
      end.
      simpl in Hcar. destruct Hcar as (Hact2 & _). rewrite Hact1 in Hact2.
      assert (exists new2,
                Orchestrator.ls_actions S st2
                = Orchestrator.ls_actions S st ++ run :: new2
                /\ existsb Orchestrator.review_failed new2 = false) as (new2 & Hn2 & Hr2).
      { destruct Hact2 as [->|[input ->]].
        - exists []. by split.
        - eexists [_]. by rewrite <- app_assoc. }
      clear Hact2.
      destruct request as [[[id elig] actionType]|]; [destruct elig |]; simpl;
        repeat match goal with
               | |- context [match ?x with _ => _ end] => destruct x
               end;
        simpl; rewrite Hn2, <- ?app_assoc; simpl;
        (eexists; split; [reflexivity |]); (split; [done |]);
        simpl; rewrite ?existsb_app, ?Hrf, ?Hr2; simpl; done.
    - simpl. rewrite Hact1, <- ?app_assoc. eexists. split; [reflexivity |].
      simpl. rewrite Hrf, !orb_false_r. split; [exact Hca | done]. }
  destruct (bool_decide (Orchestrator.run_status stageResult = Orchestrator.failed)).
  - simpl. rewrite Hact1, <- ?app_assoc. eexists. split; [reflexivity |].
    simpl. rewrite Hrf, !orb_false_r. split; [exact Hca | done].
  - simpl. rewrite Hact1. eexists. split; [reflexivity |].
    simpl. rewrite Hrf, !orb_false_r. split; [exact Hca | done].
Qed.

Lemma run_stages_actions w options runId stages (st : LoopState) :
  let out := run_stages w options runId stages st in
  exists new,
    Orchestrator.ls_actions S out.2 = Orchestrator.ls_actions S st ++ new
    /\ (existsb Orchestrator.commit_activity new = true -> commit ∈ stages)
    /\ (existsb Orchestrator.review_failed new = true ->
        review ∈ stages
        /\ out.1 = Orchestrator.Break
        /\ Orchestrator.ls_finalStatus S out.2 = Orchestrator.failed
        /\ Orchestrator.ls_reviewerVerdict S out.2 = Some FAIL
        /\ Orchestrator.ls_finalResult S out.2 <> Orchestrator.ResultUndefined
        /\ exists pre a e,
             new = pre ++ [a; e]
             /\ existsb Orchestrator.review_failed pre = false
             /\ Orchestrator.review_failed a = true
             /\ Orchestrator.is_blocked_event e = true)
    /\ (Orchestrator.reviews_precede_commits stages = true ->
        existsb Orchestrator.review_failed new = true ->
        existsb Orchestrator.commit_activity new = false).
Proof.
  revert st. induction stages as [|stage rest IH]; intros st; simpl.
  { exists []. rewrite app_nil_r. simpl. repeat split; done. }
  destruct (run_stage_actions w options runId stage st)
    as (new1 & Hact1 & Hc1 & Hf1).
  destruct (run_stage w options runId stage st) as [exit1 st1].
  simpl in Hact1, Hf1.
  assert (exit1 <> Orchestrator.Next ->
          exists new,
            Orchestrator.ls_actions S st1 = Orchestrator.ls_actions S st ++ new
            /\ (existsb Orchestrator.commit_activity new = true ->
                commit ∈ stage :: rest)
            /\ (existsb Orchestrator.review_failed new = true ->
                review ∈ stage :: rest
                /\ exit1 = Orchestrator.Break
                /\ Orchestrator.ls_finalStatus S st1 = Orchestrator.failed
                /\ Orchestrator.ls_reviewerVerdict S st1 = Some FAIL
                /\ Orchestrator.ls_finalResult S st1 <> Orchestrator.ResultUndefined
                /\ exists pre a e,
                     new = pre ++ [a; e]
                     /\ existsb Orchestrator.review_failed pre = false
                     /\ Orchestrator.review_failed a = true
                     /\ Orchestrator.is_blocked_event e = true)
            /\ ((if decide (stage = commit)
                 then negb (bool_decide (review ∈ rest)) else true)
                && Orchestrator.reviews_precede_commits rest = true ->
                existsb Orchestrator.review_failed new = true ->
                existsb Orchestrator.commit_activity new = false)) as Hstop.
  { intros _. exists new1. split; [exact Hact1 |]. split.
    { intros H. apply Hc1 in H. subst. apply list_elem_of_here. }
    split.
    { intros H. destruct (Hf1 H) as (-> & ? & ? & ? & ? & a & e & -> & ? & ?).
      repeat split; try done; [apply list_elem_of_here |].
      exists [], a, e. done. }
    intros _ H. destruct (Hf1 H) as (-> & _).
    destruct (existsb Orchestrator.commit_activity new1) eqn:E; [| done].
    by specialize (Hc1 eq_refl). }
  destruct exit1; [| by apply Hstop | by apply Hstop]. clear Hstop.
  destruct (IH st1) as (new2 & Hact2 & Hc2 & Hf2 & Ho2).
  destruct (run_stages w options runId rest st1) as [exit2 st2].
  simpl in *.
  assert (existsb Orchestrator.review_failed new1 = false) as Hnf1.
  { destruct (existsb Orchestrator.review_failed new1); [| done].
    by destruct (Hf1 eq_refl) as (_ & ? & _). }
  exists (new1 ++ new2). split; [by rewrite Hact2, Hact1, <- app_assoc |].
  rewrite !existsb_app, Hnf1. simpl. split.
  { intros [H|H]%orb_true_iff.
    - apply Hc1 in H. subst. apply list_elem_of_here.
    - apply list_elem_of_further. auto. }
  split.
  { intros H. destruct (Hf2 H) as (? & ? & ? & ? & ? & pre & a & e & -> & ? & ? & ?).
    repeat split; try done; [by apply list_elem_of_further |].
    exists (new1 ++ pre), a, e. rewrite <- app_assoc.
    repeat split; try done. rewrite existsb_app, Hnf1. done. }
  intros [Hhere Hrest]%andb_true_iff H.
  destruct (Hf2 H) as (Hrev & _).
  destruct (decide (stage = commit)) as [->|Hne].
  { apply negb_true_iff, bool_decide_eq_false in Hhere. done. }
  rewrite (Ho2 Hrest H), orb_false_r.
  destruct (existsb Orchestrator.commit_activity new1); [| done].
  by specialize (Hc1 eq_refl).
Qed.

Lemma runWorkflow_review_failed (s : S) uuid w options :
  let result :=
    (Orchestrator.runWorkflow S store_createRequest store_autoApprove runAgent
       has_store s uuid w options).1 in
  let actions := Orchestrator.res_actions result in
  existsb Orchestrator.review_failed actions = true ->
  Orchestrator.res_status result = Orchestrator.failed
  /\ Orchestrator.res_reviewerVerdict result = Some FAIL
  /\ (exists pre a e completion,
        actions = pre ++ [a; e; completion]
        /\ existsb Orchestrator.review_failed pre = false
        /\ Orchestrator.review_failed a = true
        /\ Orchestrator.is_blocked_event e = true
        /\ Orchestrator.is_log completion = true)
  /\ (Orchestrator.reviews_precede_commits (stages w) = true ->
      existsb Orchestrator.commit_activity actions = false).
Proof.
  unfold Orchestrator.runWorkflow.
  destruct (Orchestrator.validateWorkflowDefinition w); [done |].
  destruct (negb _ && _); [done |].
  match goal with
  | |- context [run_stages w options ?r (stages w) ?st] =>
      destruct (run_stages_actions w options r (stages w) st)
        as (new & Hact & Hc & Hf & Ho);
      destruct (run_stages w options r (stages w) st) as [exit st']
  end.
  simpl in Hact, Hf.
  assert (existsb Orchestrator.review_failed (Orchestrator.ls_actions S st') = true ->
          existsb Orchestrator.review_failed new = true) as Hnew.
  { rewrite Hact. simpl. done. }
  assert (forall st'' : LoopState,
            (exists completion,
               Orchestrator.ls_actions S st''
               = Orchestrator.ls_actions S st' ++ [completion]
               /\ Orchestrator.is_log completion = true) ->
            Orchestrator.ls_finalStatus S st'' = Orchestrator.ls_finalStatus S st' ->
            Orchestrator.ls_reviewerVerdict S st''
            = Orchestrator.ls_reviewerVerdict S st' ->
            exit = Orchestrator.Break ->
            let result := (Orchestrator.finish S
                             (default uuid (Orchestrator.opt_runId options)) st'').1 in
            let actions := Orchestrator.res_actions result in
            existsb Orchestrator.review_failed actions = true ->
            Orchestrator.res_status result = Orchestrator.failed
            /\ Orchestrator.res_reviewerVerdict result = Some FAIL
            /\ (exists pre a e completion,
                  actions = pre ++ [a; e; completion]
                  /\ existsb Orchestrator.review_failed pre = false
                  /\ Orchestrator.review_failed a = true
                  /\ Orchestrator.is_blocked_event e = true
                  /\ Orchestrator.is_log completion = true)
            /\ (Orchestrator.reviews_precede_commits (stages w) = true ->
                existsb Orchestrator.commit_activity actions = false)) as Hfinish.
  { intros st'' (completion & Hact'' & Hlog) Hstatus Hverdict _. simpl.
    rewrite Hact'', Hstatus, Hverdict, Hact.
    destruct completion as [ev| | |]; try done.
    simpl. rewrite !existsb_app. simpl.
    rewrite !orb_false_r. intros H.
    destruct (Hf H) as (_ & _ & Hs & Hv & _ & pre & a & e & Hnew' & Hpre & Ha & He).
    repeat split; try done.
    - eexists (_ :: pre), a, e, _. rewrite Hnew', <- app_assoc. simpl.
      repeat split; try done.
    - intros Hord. by apply Ho. }
  destruct exit.
  - (* the loop ran to its end *)
    destruct (Orchestrator.ls_finalResult S st') eqn:Hres; simpl.
    + rewrite Hact. simpl. rewrite existsb_app. simpl. rewrite orb_false_r.
      intros H. destruct (Hf H) as (_ & ? & _). done.
    + rewrite Hact. simpl. rewrite existsb_app. simpl. rewrite orb_false_r.
      intros H. destruct (Hf H) as (_ & ? & _). done.
    + rewrite Hact. simpl. rewrite existsb_app. simpl. rewrite orb_false_r.
      intros H. destruct (Hf H) as (_ & ? & _). done.
  - (* break *)
    destruct (Orchestrator.ls_finalResult S st') eqn:Hres.
    + simpl. rewrite Hact. simpl. rewrite existsb_app. simpl. rewrite orb_false_r.
      intros H. destruct (Hf H) as (_ & _ & _ & _ & ? & _). done.
    + apply Hfinish; try done. simpl. eauto.
    + apply Hfinish; try done. simpl. eauto.
  - (* an exception *)
    simpl. rewrite Hact. simpl. rewrite existsb_app. simpl. rewrite orb_false_r.
    intros H. destruct (Hf H) as (_ & ? & _). done.
Qed.

End OrchestratorFacts.

(** C6, as the code has it. In every workflow run in which an agent run of
    the review stage produces the verdict FAIL, the run ends with status
    failed and reviewer verdict FAIL; the failing review is followed by the
    audit event "Workflow blocked: reviewer verdict FAIL" (warning "Commit
    stage blocked due to reviewer FAIL verdict") and by the completion
    event only, so no stage is entered after it; and when no review stage
    follows a commit stage in the stage list, the commit stage is never
    entered in the run: no commit-stage agent run, no approval request, no
    auto-approval. *)
Theorem reviewer_fail_blocks_commit
    (S : Type)
    (store_createRequest :
       S -> Orchestrator.ApprovalRequestInput ->
       outcome Approvals.ApprovalRequest * S)
    (store_autoApprove :
       S -> string -> string -> outcome (option Approvals.ApprovalDecision) * S)
    (runAgent :
       nat -> AgentDefinition -> WorkflowStage -> string ->
       option ReviewerVerdict -> outcome Orchestrator.AgentRunResult)
    (has_store : bool) (s : S) (uuid : string)
    (w : WorkflowDefinition) (options : Orchestrator.WorkflowRunOptions) :
  let result :=
    fst (Orchestrator.runWorkflow S store_createRequest store_autoApprove runAgent
           has_store s uuid w options) in
  let actions := Orchestrator.res_actions result in
  existsb Orchestrator.review_failed actions = true ->
  Orchestrator.res_status result = Orchestrator.failed
  /\ Orchestrator.res_reviewerVerdict result = Some FAIL
  /\ existsb Orchestrator.is_blocked_event actions = true
  /\ (exists pre a e completion,
        actions = pre ++ [a; e; completion]
        /\ existsb Orchestrator.review_failed pre = false
        /\ Orchestrator.review_failed a = true
        /\ Orchestrator.is_blocked_event e = true
        /\ Orchestrator.is_log completion = true)
  /\ (Orchestrator.reviews_precede_commits (stages w) = true ->
      existsb Orchestrator.commit_activity actions = false).
Proof.
  intros result actions Hfail.
  destruct (runWorkflow_review_failed store_createRequest store_autoApprove
              runAgent has_store s uuid w options Hfail)
    as (Hstatus & Hverdict & Htail & Hcommit).
  split; [exact Hstatus |]. split; [exact Hverdict |].
  split; [| split; [exact Htail | exact Hcommit]].
  destruct Htail as (pre & a & e & completion & Hact & _ & _ & He & _).
  fold result actions in Hact. rewrite Hact, existsb_app. simpl.
  rewrite He, orb_true_l, !orb_true_r. reflexivity.
Qed.

(** The standard workflow plan, execute, review, commit with a reviewer
    that answers FAIL: the run fails and the commit stage is not entered. *)
Lemma reviewer_fail_blocks_commit_witness :
  let result :=
    Samples.run_without_store Samples.reviewer_fails
      (Samples.workflow [plan; execute; review; commit]) in
  Orchestrator.res_status result = Orchestrator.failed
  /\ existsb Orchestrator.commit_activity (Orchestrator.res_actions result) = false.
Proof.
  destruct (reviewer_fail_blocks_commit unit
              (fun s _ => (Throw "no approval store", s))
              (fun s _ _ => (Ok None, s))
              Samples.reviewer_fails false tt Samples.run_1
              (Samples.workflow [plan; execute; review; commit])
              Samples.run_options eq_refl)
    as (Hstatus & _ & _ & _ & Hcommit).
  split; [exact Hstatus | exact (Hcommit eq_refl)].
Defined.

(** C6, the claim as stated fails: the stage list review, commit, review
    passes the validation of [runWorkflow]; with a reviewer that answers
    PASS and then FAIL, the run has a review-stage agent run with verdict
    FAIL and ends failed, yet the commit-stage agent has run. *)
Lemma commit_entered_before_failed_review :
  let result :=
    Samples.run_without_store Samples.reviewer_passes_then_fails
      (Samples.workflow [review; commit; review]) in
  existsb Orchestrator.review_failed (Orchestrator.res_actions result) = true
  /\ Orchestrator.res_status result = Orchestrator.failed
  /\ existsb Orchestrator.commit_activity (Orchestrator.res_actions result) = true.
Proof. vm_compute. auto. Qed.
